(** * Pololu Simple Motor Controller serial protocol (USB_18v7.c)

    A shallow embedding of [src/USB_18v7.c]: the protocol functions
    [smcGetVariable], [smcGetTargetSpeed], [smcGetErrorStatus],
    [smcExitSafeStart] and [smcSetTargetSpeed], and the program [main]
    that drives them.

    The functions talk to the controller through the POSIX calls [write]
    and [read] on a file descriptor and report failures with [perror].
    They are embedded as programs of a small free monad [io] whose nodes
    are exactly these three calls; a program is run against an arbitrary
    [Channel] (the answers of the operating system) and yields the C
    return value, the trace of calls it made and the final channel state. *)

From Stdlib Require Import ZArith List String Bool Lia.
From ExtLib Require Import Structures.Monad.
Import ListNotations.
Import MonadNotation.
Local Open Scope Z_scope.
Local Open Scope monad_scope.

(** ** C integer types

    [int] is 32 bits wide, [short] 16 and [unsigned char] 8.  Values are
    kept in [Z]; every conversion the C code performs is written out. *)
Module CInt.

Definition INT_MIN : Z := -2147483648.
Definition INT_MAX : Z := 2147483647.

Definition in_int (x : Z) : Prop := INT_MIN <= x <= INT_MAX.

(** Reduction of a mathematical integer to the two's-complement [int]. *)
Definition wrap_int (x : Z) : Z := (x + 2147483648) mod 4294967296 - 2147483648.

(** Unary minus on [int].  Negating [INT_MIN] is undefined in ISO C; the
    model takes the two's-complement result every supported target gives. *)
Definition neg_int (x : Z) : Z := wrap_int (- x).

(** Conversion to [unsigned char] (assignment into a byte array). *)
Definition to_uchar (x : Z) : Z := x mod 256.

(** The cast [(signed short)x]. *)
Definition to_short (x : Z) : Z := (x + 32768) mod 65536 - 32768.

(** A value that fits an [unsigned char]. *)
Definition is_byte (b : Z) : Prop := 0 <= b <= 255.

End CInt.
Import CInt.

(** ** System calls *)

(** What [read(fd, buf, count)] delivers: [-1] (an error), or the bytes it
    stored in the buffer, whose number is its return value. *)
Inductive read_result : Type :=
| ReadError
| ReadData (bytes : list Z).

Definition read_ret (r : read_result) : Z :=
  match r with
  | ReadError => -1
  | ReadData bytes => Z.of_nat (List.length bytes)
  end.

Definition read_data (r : read_result) : list Z :=
  match r with
  | ReadError => []
  | ReadData bytes => bytes
  end.

(** Programs over the three external calls of the source. *)
Inductive io (A : Type) : Type :=
| Ret (a : A)
| SysWrite (fd : Z) (buf : list Z) (count : Z) (k : Z -> io A)
| SysRead (fd : Z) (count : Z) (k : read_result -> io A)
| SysPerror (msg : string) (k : io A).

Arguments Ret {A} a.
Arguments SysWrite {A} fd buf count k.
Arguments SysRead {A} fd count k.
Arguments SysPerror {A} msg k.

Fixpoint io_bind {A B : Type} (m : io A) (f : A -> io B) : io B :=
  match m with
  | Ret a => f a
  | SysWrite fd buf count k => SysWrite fd buf count (fun w => io_bind (k w) f)
  | SysRead fd count k => SysRead fd count (fun r => io_bind (k r) f)
  | SysPerror msg k => SysPerror msg (io_bind k f)
  end.

#[export] Instance Monad_io : Monad io :=
  {| ret := @Ret; bind := @io_bind |}.

Definition write (fd : Z) (buf : list Z) (count : Z) : io Z :=
  SysWrite fd buf count Ret.

Definition read (fd : Z) (count : Z) : io read_result :=
  SysRead fd count Ret.

Definition perror (msg : string) : io unit :=
  SysPerror msg (Ret tt).

(** [sizeof] of an array of [unsigned char]. *)
Definition sizeof (a : list Z) : Z := Z.of_nat (List.length a).

(** ** The protocol functions *)

Definition SERIAL_ERROR : Z := -9999.

Definition smcGetVariable (fd : Z) (variableId : Z) : io Z :=
  let command := [to_uchar 0xA1; to_uchar variableId] in
  w <- write fd command (sizeof command) ;;
  if w =? -1 then
    perror "error writing" ;;
    ret SERIAL_ERROR
  else
    r <- read fd 2 ;;
    if negb (read_ret r =? 2) then
      perror "error reading" ;;
      ret SERIAL_ERROR
    else
      let response := fun i : nat => nth i (read_data r) 0 in
      ret (response 0%nat + 256 * response 1%nat).

Definition smcGetTargetSpeed (fd : Z) : io Z :=
  val <- smcGetVariable fd 20 ;;
  ret (if val =? SERIAL_ERROR then SERIAL_ERROR else to_short val).

Definition smcGetErrorStatus (fd : Z) : io Z :=
  smcGetVariable fd 0.

Definition smcExitSafeStart (fd : Z) : io Z :=
  let command := to_uchar 0x83 in
  w <- write fd [command] 1 ;;
  if w =? -1 then
    perror "error writing" ;;
    ret SERIAL_ERROR
  else
    ret 0.

Definition smcSetTargetSpeed (fd : Z) (speed : Z) : io Z :=
  let '(command0, speed) :=
    if speed <? 0 then (to_uchar 0x86, neg_int speed)
    else (to_uchar 0x85, speed) in
  let command1 := to_uchar (Z.land speed 0x1F) in
  let command2 := to_uchar (Z.land (Z.shiftr speed 5) 0x7F) in
  let command := [command0; command1; command2] in
  w <- write fd command (sizeof command) ;;
  if w =? -1 then
    perror "error writing" ;;
    ret SERIAL_ERROR
  else
    ret 0.

(** ** Running a program against a channel *)

(** The environment: a state and the answers of [write] and [read] in it.
    Nothing is assumed about the answers. *)
Record Channel : Type := {
  chan_state : Type;
  chan_write : chan_state -> Z -> list Z -> Z -> Z * chan_state;
  chan_read : chan_state -> Z -> Z -> read_result * chan_state
}.

Inductive event : Type :=
| EvWrite (fd : Z) (buf : list Z) (count : Z) (ret : Z)
| EvRead (fd : Z) (count : Z) (r : read_result)
| EvPerror (msg : string).

Record outcome (S A : Type) : Type := {
  result : A;
  trace : list event;
  final : S
}.

Arguments result {S A} o.
Arguments trace {S A} o.
Arguments final {S A} o.

Fixpoint run {A : Type} (ch : Channel) (p : io A) (s : chan_state ch)
  : outcome (chan_state ch) A :=
  match p with
  | Ret a => {| result := a; trace := []; final := s |}
  | SysWrite fd buf count k =>
      let '(w, s1) := chan_write ch s fd buf count in
      let o := run ch (k w) s1 in
      {| result := result o;
         trace := EvWrite fd buf count w :: trace o;
         final := final o |}
  | SysRead fd count k =>
      let '(r, s1) := chan_read ch s fd count in
      let o := run ch (k r) s1 in
      {| result := result o;
         trace := EvRead fd count r :: trace o;
         final := final o |}
  | SysPerror msg k =>
      let o := run ch k s in
      {| result := result o;
         trace := EvPerror msg :: trace o;
         final := final o |}
  end.

(** The byte sequences handed to [write], call by call. *)
Fixpoint sent_bytes (tr : list event) : list (list Z) :=
  match tr with
  | [] => []
  | EvWrite _ buf count _ :: tr' => firstn (Z.to_nat count) buf :: sent_bytes tr'
  | _ :: tr' => sent_bytes tr'
  end.

(** The number of [read] calls attempted. *)
Fixpoint read_attempts (tr : list event) : nat :=
  match tr with
  | [] => 0%nat
  | EvRead _ _ _ :: tr' => S (read_attempts tr')
  | _ :: tr' => read_attempts tr'
  end.

(** ** A scripted channel

    A test double: the answers of successive [write] and [read] calls are
    taken from two scripts; a call that finds its script empty fails. *)
Record script : Type := Script {
  write_answers : list Z;
  read_answers : list read_result
}.

Definition script_write (s : script) (fd : Z) (buf : list Z) (count : Z)
  : Z * script :=
  match write_answers s with
  | [] => (-1, s)
  | w :: ws => (w, Script ws (read_answers s))
  end.

Definition script_read (s : script) (fd : Z) (count : Z)
  : read_result * script :=
  match read_answers s with
  | [] => (ReadError, s)
  | r :: rs => (r, Script (write_answers s) rs)
  end.

Definition scripted : Channel :=
  {| chan_state := script;
     chan_write := script_write;
     chan_read := script_read |}.

(** ** Notions used in the statements *)

(** The specification's reading of a signed variable: a 16-bit pattern
    taken as a two's-complement number. *)
Definition twos_complement16 (raw : Z) : Z :=
  if Z.testbit raw 15 then raw - 65536 else raw.

(** The contents of the array [command] of [smcSetTargetSpeed] at its call
    of [write], with the masks read as remainders. *)
Definition SetTargetSpeed_command (speed : Z) : list Z :=
  let mag := if speed <? 0 then neg_int speed else speed in
  [if speed <? 0 then 0x86 else 0x85; mag mod 32; (mag / 32) mod 128].

(** The messages handed to [perror], call by call. *)
Fixpoint perror_messages (tr : list event) : list string :=
  match tr with
  | [] => []
  | EvPerror msg :: tr' => msg :: perror_messages tr'
  | _ :: tr' => perror_messages tr'
  end.

(** The descriptor argument of a call.  [perror] takes none: it reports
    on the standard error stream. *)
Definition event_fd (e : event) : option Z :=
  match e with
  | EvWrite fd _ _ _ => Some fd
  | EvRead fd _ _ => Some fd
  | EvPerror _ => None
  end.

(** A call whose descriptor argument, when it has one, is [fd]: a [write]
    or a [read] on [fd], or a [perror]. *)
Definition on_fd (fd : Z) (e : event) : Prop :=
  event_fd e = None \/ event_fd e = Some fd.

(** ** The demonstration program [main]

    [main] adds the calls [open], [tcgetattr], [tcsetattr], [printf],
    [usleep] and [close] to those of the protocol functions.  The branch
    compiled without [_WIN32] is the one embedded. *)

(** The members of [struct termios] that POSIX names. *)
Record termios : Type := {
  c_iflag : Z;
  c_oflag : Z;
  c_cflag : Z;
  c_lflag : Z;
  c_cc : list Z
}.

(** The constants [main] takes from <fcntl.h> and <termios.h>.  These are
    system headers, not files of the repository: their values are a
    parameter of the model. *)
Record Posix : Type := {
  O_RDWR : Z; O_NOCTTY : Z;
  INLCR : Z; IGNCR : Z; ICRNL : Z; IXON : Z; IXOFF : Z;
  ONLCR : Z; OCRNL : Z;
  ECHO : Z; ECHONL : Z; ICANON : Z; ISIG : Z; IEXTEN : Z;
  TCSANOW : Z
}.

(** The values of these constants on Linux. *)
Definition linux : Posix :=
  {| O_RDWR := 2; O_NOCTTY := 256;
     INLCR := 64; IGNCR := 128; ICRNL := 256; IXON := 1024; IXOFF := 4096;
     ONLCR := 4; OCRNL := 8;
     ECHO := 8; ECHONL := 64; ICANON := 2; ISIG := 1; IEXTEN := 32768;
     TCSANOW := 0 |}.

(** Programs over the calls of [main]; [Serial] runs one of the protocol
    functions, which all return [int].  Format strings are kept as the
    source writes them. *)
Inductive sys (A : Type) : Type :=
| Done (a : A)
| SysOpen (path : string) (flags : Z) (k : Z -> sys A)
| SysTcgetattr (fd : Z) (k : termios -> sys A)
| SysTcsetattr (fd : Z) (actions : Z) (options : termios) (k : sys A)
| SysPrintf (format : string) (args : list Z) (k : sys A)
| SysUsleep (usec : Z) (k : sys A)
| SysClose (fd : Z) (k : sys A)
| SysReport (msg : string) (k : sys A)
| Serial (p : io Z) (k : Z -> sys A).

Arguments Done {A} a.
Arguments SysOpen {A} path flags k.
Arguments SysTcgetattr {A} fd k.
Arguments SysTcsetattr {A} fd actions options k.
Arguments SysPrintf {A} format args k.
Arguments SysUsleep {A} usec k.
Arguments SysClose {A} fd k.
Arguments SysReport {A} msg k.
Arguments Serial {A} p k.

Fixpoint sys_bind {A B : Type} (m : sys A) (f : A -> sys B) : sys B :=
  match m with
  | Done a => f a
  | SysOpen path flags k => SysOpen path flags (fun fd => sys_bind (k fd) f)
  | SysTcgetattr fd k => SysTcgetattr fd (fun t => sys_bind (k t) f)
  | SysTcsetattr fd actions options k =>
      SysTcsetattr fd actions options (sys_bind k f)
  | SysPrintf format args k => SysPrintf format args (sys_bind k f)
  | SysUsleep usec k => SysUsleep usec (sys_bind k f)
  | SysClose fd k => SysClose fd (sys_bind k f)
  | SysReport msg k => SysReport msg (sys_bind k f)
  | Serial p k => Serial p (fun v => sys_bind (k v) f)
  end.

#[export] Instance Monad_sys : Monad sys :=
  {| ret := @Done; bind := @sys_bind |}.

Definition open (path : string) (flags : Z) : sys Z := SysOpen path flags Done.
Definition tcgetattr (fd : Z) : sys termios := SysTcgetattr fd Done.
Definition tcsetattr (fd : Z) (actions : Z) (options : termios) : sys unit :=
  SysTcsetattr fd actions options (Done tt).
Definition printf (format : string) (args : list Z) : sys unit :=
  SysPrintf format args (Done tt).
Definition usleep (usec : Z) : sys unit := SysUsleep usec (Done tt).
Definition close (fd : Z) : sys unit := SysClose fd (Done tt).
(** [perror] as [main] itself calls it. *)
Definition report (msg : string) : sys unit := SysReport msg (Done tt).
Definition serial (p : io Z) : sys Z := Serial p Done.

(** [flags &= ~mask] on a [tcflag_t]. *)
Definition clear_flags (flags mask : Z) : Z := Z.land flags (Z.lnot mask).

(** The three assignments of [main] to the terminal options. *)
Definition raw_options (P : Posix) (options : termios) : termios :=
  let iflag :=
    clear_flags (c_iflag options)
      (Z.lor (Z.lor (Z.lor (Z.lor (INLCR P) (IGNCR P)) (ICRNL P)) (IXON P))
             (IXOFF P)) in
  let oflag := clear_flags (c_oflag options) (Z.lor (ONLCR P) (OCRNL P)) in
  let lflag :=
    clear_flags (c_lflag options)
      (Z.lor (Z.lor (Z.lor (Z.lor (ECHO P) (ECHONL P)) (ICANON P)) (ISIG P))
             (IEXTEN P)) in
  {| c_iflag := iflag; c_oflag := oflag; c_cflag := c_cflag options;
     c_lflag := lflag; c_cc := c_cc options |}.

Definition main (P : Posix) : sys Z :=
  let device := "/dev/ttyACM0"%string in
  fd <- open device (Z.lor (O_RDWR P) (O_NOCTTY P)) ;;
  if fd =? -1 then
    report device ;;
    ret 1
  else
    options <- tcgetattr fd ;;
    let options := raw_options P options in
    tcsetattr fd (TCSANOW P) options ;;
    _ <- serial (smcExitSafeStart fd) ;;
    status <- serial (smcGetErrorStatus fd) ;;
    printf "Error status: 0x%04x\n" [status] ;;
    speed <- serial (smcGetTargetSpeed fd) ;;
    printf "Current Target Speed is %d.\n" [speed] ;;
    usleep 9000000 ;;
    let newSpeed := if speed <=? 0 then 3200 else -3200 in
    printf "Setting Target Speed to %d.\n" [newSpeed] ;;
    _ <- serial (smcSetTargetSpeed fd newSpeed) ;;
    usleep 9000000 ;;
    let newSpeed := 0 in
    _ <- serial (smcSetTargetSpeed fd newSpeed) ;;
    close fd ;;
    ret 0.

(** The environment of [main]: a channel, the answers of [open] and
    [tcgetattr], and the effect on the state of the calls whose result
    [main] does not look at. *)
Inductive sys_event : Type :=
| EvOpen (path : string) (flags : Z) (ret : Z)
| EvTcgetattr (fd : Z) (options : termios)
| EvTcsetattr (fd : Z) (actions : Z) (options : termios)
| EvPrintf (format : string) (args : list Z)
| EvUsleep (usec : Z)
| EvClose (fd : Z)
| EvSerial (e : event).

Record World : Type := {
  world_chan : Channel;
  world_open : chan_state world_chan -> string -> Z -> Z * chan_state world_chan;
  world_tcgetattr : chan_state world_chan -> Z -> termios * chan_state world_chan;
  world_after : chan_state world_chan -> sys_event -> chan_state world_chan
}.

Record sys_outcome (S A : Type) : Type := {
  exit_value : A;
  calls : list sys_event;
  world_final : S
}.

Arguments exit_value {S A} _.
Arguments calls {S A} _.
Arguments world_final {S A} _.

Definition world_state (W : World) : Type := chan_state (world_chan W).

(** An outcome with the calls [es] made before it. *)
Definition after {S A : Type} (es : list sys_event) (o : sys_outcome S A)
  : sys_outcome S A :=
  {| exit_value := exit_value o;
     calls := es ++ calls o;
     world_final := world_final o |}.

Fixpoint run_sys {A : Type} (W : World) (p : sys A) (s : world_state W)
  : sys_outcome (world_state W) A :=
  let quiet (e : sys_event) (k : sys A) :=
    after [e] (run_sys W k (world_after W s e)) in
  match p with
  | Done a => {| exit_value := a; calls := []; world_final := s |}
  | SysOpen path flags k =>
      let '(fd, s1) := world_open W s path flags in
      after [EvOpen path flags fd] (run_sys W (k fd) s1)
  | SysTcgetattr fd k =>
      let '(t, s1) := world_tcgetattr W s fd in
      after [EvTcgetattr fd t] (run_sys W (k t) s1)
  | SysTcsetattr fd actions options k => quiet (EvTcsetattr fd actions options) k
  | SysPrintf format args k => quiet (EvPrintf format args) k
  | SysUsleep usec k => quiet (EvUsleep usec) k
  | SysClose fd k => quiet (EvClose fd) k
  | SysReport msg k => quiet (EvSerial (EvPerror msg)) k
  | Serial p k =>
      let o := run (world_chan W) p s in
      after (map EvSerial (trace o)) (run_sys W (k (result o)) (final o))
  end.

(** The calls of a run that went through [write], [read] or [perror]. *)
Fixpoint serial_events (tr : list sys_event) : list event :=
  match tr with
  | [] => []
  | EvSerial e :: tr' => e :: serial_events tr'
  | _ :: tr' => serial_events tr'
  end.

(** What a run printed: the format and the arguments of each [printf]. *)
Fixpoint printed (tr : list sys_event) : list (string * list Z) :=
  match tr with
  | [] => []
  | EvPrintf format args :: tr' => (format, args) :: printed tr'
  | _ :: tr' => printed tr'
  end.

(** A world over the scripted channel: [open] answers [fd], [tcgetattr]
    answers [t], and the remaining calls leave the scripts alone. *)
Definition scripted_world (fd : Z) (t : termios) : World :=
  {| world_chan := scripted;
     world_open := fun s _ _ => (fd, s);
     world_tcgetattr := fun s _ => (t, s);
     world_after := fun s _ => s |}.

(** The descriptor, the actions and the options of each [tcsetattr]. *)
Fixpoint tcsetattr_calls (tr : list sys_event) : list (Z * Z * termios) :=
  match tr with
  | [] => []
  | EvTcsetattr fd actions options :: tr' =>
      (fd, actions, options) :: tcsetattr_calls tr'
  | _ :: tr' => tcsetattr_calls tr'
  end.

(** A line on which nothing ever answers: every [write] takes all its
    bytes and every [read] fails. *)
Definition silent : Channel :=
  {| chan_state := unit;
     chan_write := fun s _ _ count => (count, s);
     chan_read := fun s _ _ => (ReadError, s) |}.

Definition silent_world (fd : Z) (t : termios) : World :=
  {| world_chan := silent;
     world_open := fun s _ _ => (fd, s);
     world_tcgetattr := fun s _ => (t, s);
     world_after := fun s _ => s |}.

(** ** Concrete runs *)

Example run_GetErrorStatus_ok :
  run scripted (smcGetErrorStatus 3) (Script [2] [ReadData [0; 0]])
  = {| result := 0;
       trace := [EvWrite 3 [0xA1; 0] 2 2; EvRead 3 2 (ReadData [0; 0])];
       final := Script [] [] |}.
Proof. reflexivity. Qed.

Example run_SetTargetSpeed_3200 :
  run scripted (smcSetTargetSpeed 3 3200) (Script [3] [])
  = {| result := 0;
       trace := [EvWrite 3 [0x85; 0x00; 0x64] 3 3];
       final := Script [] [] |}.
Proof. reflexivity. Qed.

(** ** Arithmetic of the conversions *)

Lemma to_uchar_id (x : Z) : is_byte x -> to_uchar x = x.
Proof. unfold is_byte, to_uchar. intros H. apply Z.mod_small. lia. Qed.

Lemma land_0x1F (x : Z) : Z.land x 0x1F = x mod 32.
Proof. change 0x1F with (Z.ones 5). rewrite Z.land_ones by lia. reflexivity. Qed.

Lemma land_shiftr5_0x7F (x : Z) : Z.land (Z.shiftr x 5) 0x7F = (x / 32) mod 128.
Proof.
  change 0x7F with (Z.ones 7). rewrite Z.land_ones by lia.
  rewrite Z.shiftr_div_pow2 by lia. reflexivity.
Qed.

Lemma wrap_int_id (x : Z) : in_int x -> wrap_int x = x.
Proof.
  unfold in_int, INT_MIN, INT_MAX, wrap_int. intros H.
  rewrite Z.mod_small by lia. lia.
Qed.

(** Away from [INT_MIN] the negation of the model is the exact one. *)
Lemma neg_int_exact (x : Z) : in_int x -> INT_MIN < x -> neg_int x = - x.
Proof.
  unfold neg_int. intros H Hmin. apply wrap_int_id.
  unfold in_int, INT_MIN, INT_MAX in *. lia.
Qed.

Lemma wrap_int_mod4096 (x : Z) : wrap_int x mod 4096 = x mod 4096.
Proof. unfold wrap_int. Z.div_mod_to_equations. lia. Qed.

Lemma low5_mod4096 (x : Z) : x mod 32 = (x mod 4096) mod 32.
Proof. Z.div_mod_to_equations. lia. Qed.

Lemma high7_mod4096 (x : Z) : (x / 32) mod 128 = (x mod 4096) / 32.
Proof. Z.div_mod_to_equations. lia. Qed.

Lemma to_short_twos_complement (raw : Z) :
  0 <= raw <= 65535 -> to_short raw = twos_complement16 raw.
Proof.
  intros H. unfold to_short, twos_complement16.
  destruct (Z.testbit raw 15) eqn:E.
  - apply Z.testbit_true in E; [| lia]. change (2 ^ 15) with 32768 in E.
    Z.div_mod_to_equations. lia.
  - apply Z.testbit_false in E; [| lia]. change (2 ^ 15) with 32768 in E.
    Z.div_mod_to_equations. lia.
Qed.

(** ** Behaviour of the functions on an arbitrary channel *)

Section Behaviour.

Variable ch : Channel.

Implicit Types (s : chan_state ch) (fd w : Z) (r : read_result).

(** The call sequence of [smcGetVariable], as a function of the answers
    the channel gives. *)
Lemma run_smcGetVariable s fd id w s1 r s2 :
  chan_write ch s fd [0xA1; to_uchar id] 2 = (w, s1) ->
  chan_read ch s1 fd 2 = (r, s2) ->
  run ch (smcGetVariable fd id) s =
    if w =? -1 then
      {| result := SERIAL_ERROR;
         trace := [EvWrite fd [0xA1; to_uchar id] 2 w; EvPerror "error writing"];
         final := s1 |}
    else if read_ret r =? 2 then
      {| result := nth 0 (read_data r) 0 + 256 * nth 1 (read_data r) 0;
         trace := [EvWrite fd [0xA1; to_uchar id] 2 w; EvRead fd 2 r];
         final := s2 |}
    else
      {| result := SERIAL_ERROR;
         trace := [EvWrite fd [0xA1; to_uchar id] 2 w; EvRead fd 2 r;
                   EvPerror "error reading"];
         final := s2 |}.
Proof.
  intros Hw Hr. unfold smcGetVariable. cbn.
  change (to_uchar 161) with 161. rewrite Hw.
  destruct (w =? -1); cbn; [reflexivity |].
  rewrite Hr. destruct (read_ret r =? 2); reflexivity.
Qed.

Lemma run_smcGetTargetSpeed s fd :
  run ch (smcGetTargetSpeed fd) s =
    let o := run ch (smcGetVariable fd 20) s in
    {| result := if result o =? SERIAL_ERROR then SERIAL_ERROR
                 else to_short (result o);
       trace := trace o;
       final := final o |}.
Proof.
  unfold smcGetTargetSpeed, smcGetVariable. cbn.
  destruct (chan_write ch s fd _ _) as [w s1].
  destruct (w =? -1); cbn; [reflexivity |].
  destruct (chan_read ch s1 fd 2) as [r s2].
  destruct (read_ret r =? 2); cbn; rewrite ?app_nil_r; reflexivity.
Qed.

Lemma run_smcExitSafeStart s fd w s1 :
  chan_write ch s fd [0x83] 1 = (w, s1) ->
  run ch (smcExitSafeStart fd) s =
    if w =? -1 then
      {| result := SERIAL_ERROR;
         trace := [EvWrite fd [0x83] 1 w; EvPerror "error writing"];
         final := s1 |}
    else
      {| result := 0; trace := [EvWrite fd [0x83] 1 w]; final := s1 |}.
Proof.
  intros Hw. unfold smcExitSafeStart. cbn.
  change (to_uchar 131) with 131. rewrite Hw.
  destruct (w =? -1); reflexivity.
Qed.

Lemma run_smcSetTargetSpeed s fd speed w s1 :
  chan_write ch s fd (SetTargetSpeed_command speed) 3 = (w, s1) ->
  run ch (smcSetTargetSpeed fd speed) s =
    if w =? -1 then
      {| result := SERIAL_ERROR;
         trace := [EvWrite fd (SetTargetSpeed_command speed) 3 w;
                   EvPerror "error writing"];
         final := s1 |}
    else
      {| result := 0;
         trace := [EvWrite fd (SetTargetSpeed_command speed) 3 w];
         final := s1 |}.
Proof.
  unfold SetTargetSpeed_command, smcSetTargetSpeed. intros Hw.
  assert (U5 : forall x, to_uchar (Z.land x 0x1F) = x mod 32).
  { intros x. rewrite land_0x1F. apply to_uchar_id. unfold is_byte.
    Z.div_mod_to_equations. lia. }
  assert (U7 : forall x, to_uchar (Z.land (Z.shiftr x 5) 0x7F) = (x / 32) mod 128).
  { intros x. rewrite land_shiftr5_0x7F. apply to_uchar_id. unfold is_byte.
    Z.div_mod_to_equations. lia. }
  destruct (speed <? 0); cbn [run bind Monad_io io_bind write sizeof List.length];
    rewrite U5, U7; change (to_uchar 134) with 134; change (to_uchar 133) with 133;
    change (sizeof [_; _; _]) with 3; rewrite Hw; destruct (w =? -1); reflexivity.
Qed.

(** What each function hands to [write], whatever the channel answers. *)
Lemma sent_smcGetVariable s fd id :
  sent_bytes (trace (run ch (smcGetVariable fd id) s)) = [[0xA1; to_uchar id]].
Proof.
  destruct (chan_write ch s fd [0xA1; to_uchar id] 2) as [w s1] eqn:Hw.
  destruct (chan_read ch s1 fd 2) as [r s2] eqn:Hr.
  rewrite (run_smcGetVariable _ _ _ _ _ _ _ Hw Hr).
  destruct (w =? -1); [reflexivity |].
  destruct (read_ret r =? 2); reflexivity.
Qed.

Lemma sent_smcSetTargetSpeed s fd speed :
  sent_bytes (trace (run ch (smcSetTargetSpeed fd speed) s))
  = [SetTargetSpeed_command speed].
Proof.
  destruct (chan_write ch s fd (SetTargetSpeed_command speed) 3) as [w s1] eqn:Hw.
  rewrite (run_smcSetTargetSpeed _ _ _ _ _ Hw).
  destruct (w =? -1); reflexivity.
Qed.

End Behaviour.

(** The command array in terms of the magnitude of the speed. *)
Lemma SetTargetSpeed_command_abs (speed : Z) :
  SetTargetSpeed_command speed =
    [if speed <? 0 then 0x86 else 0x85;
     (Z.abs speed mod 4096) mod 32;
     (Z.abs speed mod 4096) / 32].
Proof.
  unfold SetTargetSpeed_command, neg_int.
  destruct (Z.ltb_spec speed 0) as [Hneg | Hpos].
  - rewrite (low5_mod4096 (wrap_int _)), (high7_mod4096 (wrap_int _)).
    rewrite wrap_int_mod4096. replace (Z.abs speed) with (- speed) by lia.
    reflexivity.
  - rewrite (low5_mod4096 speed), (high7_mod4096 speed).
    replace (Z.abs speed) with speed by lia. reflexivity.
Qed.

(** ** Set Target Speed on the wire *)

(** C1. For every speed in [-3200, 3200], [smcSetTargetSpeed] hands one
    sequence of exactly 3 bytes to [write]: the direction byte (0x86 for a
    negative speed, 0x85 otherwise), the lowest 5 bits of the magnitude and
    its next 7 bits.  Speed 0 sends 85 00 00, speed 3200 sends 85 00 64 and
    speed -3200 sends 86 00 64. *)
Theorem smcSetTargetSpeed_wire_format
    (ch : Channel) (s : chan_state ch) (fd speed : Z) :
  -3200 <= speed <= 3200 ->
  sent_bytes (trace (run ch (smcSetTargetSpeed fd speed) s)) =
    [[if speed <? 0 then 0x86 else 0x85;
      Z.land (Z.abs speed) 0x1F;
      Z.land (Z.shiftr (Z.abs speed) 5) 0x7F]]
  /\ sent_bytes (trace (run ch (smcSetTargetSpeed fd 0) s)) = [[0x85; 0x00; 0x00]]
  /\ sent_bytes (trace (run ch (smcSetTargetSpeed fd 3200) s)) = [[0x85; 0x00; 0x64]]
  /\ sent_bytes (trace (run ch (smcSetTargetSpeed fd (-3200)) s)) = [[0x86; 0x00; 0x64]].
Proof.
  intros Hrange. rewrite !sent_smcSetTargetSpeed.
  split; [| repeat split; reflexivity].
  rewrite SetTargetSpeed_command_abs, land_0x1F, land_shiftr5_0x7F.
  rewrite (Z.mod_small (Z.abs speed) 4096) by lia.
  rewrite (Z.mod_small (Z.abs speed / 32) 128)
    by (Z.div_mod_to_equations; lia).
  reflexivity.
Qed.

Lemma smcSetTargetSpeed_wire_format_witness :
  -3200 <= -1234 <= 3200 /\
  sent_bytes (trace (run scripted (smcSetTargetSpeed 3 (-1234)) (Script [3] [])))
  = [[0x86; 18; 38]].
Proof.
  split; [lia |].
  apply (smcSetTargetSpeed_wire_format scripted (Script [3] []) 3 (-1234)).
  lia.
Defined.

(** C9. [smcSetTargetSpeed] rejects no speed.  Two speeds of the same sign
    whose magnitudes are congruent modulo 4096 give the same run: the same
    3 bytes go to [write] and the same value is returned.  The payload
    carries the magnitude reduced to its lowest 12 bits. *)
Theorem smcSetTargetSpeed_truncates_silently
    (ch : Channel) (st : chan_state ch) (fd speed speed' : Z) :
  (speed <? 0) = (speed' <? 0) ->
  Z.abs speed mod 4096 = Z.abs speed' mod 4096 ->
  run ch (smcSetTargetSpeed fd speed) st = run ch (smcSetTargetSpeed fd speed') st
  /\ sent_bytes (trace (run ch (smcSetTargetSpeed fd speed) st))
     = sent_bytes (trace (run ch (smcSetTargetSpeed fd speed') st))
  /\ exists low high,
       sent_bytes (trace (run ch (smcSetTargetSpeed fd speed) st))
       = [[if speed <? 0 then 0x86 else 0x85; low; high]]
       /\ low + 32 * high = Z.abs speed mod 4096.
Proof.
  intros Hsign Hmag.
  assert (Hcmd : SetTargetSpeed_command speed = SetTargetSpeed_command speed').
  { rewrite !SetTargetSpeed_command_abs, Hsign, Hmag. reflexivity. }
  assert (Hrun : run ch (smcSetTargetSpeed fd speed) st
                 = run ch (smcSetTargetSpeed fd speed') st).
  { destruct (chan_write ch st fd (SetTargetSpeed_command speed) 3)
      as [w s1] eqn:Hw.
    rewrite (run_smcSetTargetSpeed ch st fd speed w s1 Hw).
    rewrite Hcmd in Hw.
    rewrite (run_smcSetTargetSpeed ch st fd speed' w s1 Hw).
    rewrite Hcmd. reflexivity. }
  split; [exact Hrun |]. split; [rewrite Hrun; reflexivity |].
  rewrite sent_smcSetTargetSpeed, SetTargetSpeed_command_abs.
  eexists. eexists. split; [reflexivity |].
  Z.div_mod_to_equations. lia.
Qed.

Lemma smcSetTargetSpeed_truncates_silently_witness :
  (7296 <? 0) = (3200 <? 0) /\
  Z.abs 7296 mod 4096 = Z.abs 3200 mod 4096 /\
  run scripted (smcSetTargetSpeed 3 7296) (Script [3] [])
  = run scripted (smcSetTargetSpeed 3 3200) (Script [3] []).
Proof.
  split; [reflexivity |]. split; [reflexivity |].
  apply (smcSetTargetSpeed_truncates_silently scripted (Script [3] [])
           3 7296 3200);
    reflexivity.
Defined.

(** C10. On magnitudes up to 4095, hence on the whole protocol range, the
    encoding loses nothing: the two payload bytes sent by
    [smcSetTargetSpeed], [low] within 0..31 and [high] within 0..127,
    satisfy [low + 32 * high = |speed|], so the bytes on the wire give the
    magnitude back. *)
Theorem smcSetTargetSpeed_lossless
    (ch : Channel) (s : chan_state ch) (fd speed : Z) :
  Z.abs speed <= 4095 ->
  exists low high,
    sent_bytes (trace (run ch (smcSetTargetSpeed fd speed) s))
    = [[if speed <? 0 then 0x86 else 0x85; low; high]]
    /\ 0 <= low <= 31
    /\ 0 <= high <= 127
    /\ low + 32 * high = Z.abs speed.
Proof.
  intros Hmag. rewrite sent_smcSetTargetSpeed, SetTargetSpeed_command_abs.
  eexists. eexists. split; [reflexivity |].
  repeat split; Z.div_mod_to_equations; lia.
Qed.

Lemma smcSetTargetSpeed_lossless_witness :
  Z.abs (-4095) <= 4095 /\
  exists low high,
    sent_bytes (trace (run scripted (smcSetTargetSpeed 3 (-4095)) (Script [3] [])))
    = [[0x86; low; high]]
    /\ 0 <= low <= 31
    /\ 0 <= high <= 127
    /\ low + 32 * high = 4095.
Proof.
  split; [cbn; lia |].
  apply (smcSetTargetSpeed_lossless scripted (Script [3] []) 3 (-4095)).
  cbn. lia.
Defined.

(** ** Get Variable *)

(** C7. For every id in 0..255 the command [smcGetVariable] hands to
    [write] is exactly the two bytes A1, id: the id goes through unchanged.
    [smcGetErrorStatus] writes A1 00. *)
Theorem smcGetVariable_command
    (ch : Channel) (s : chan_state ch) (fd id : Z) :
  0 <= id <= 255 ->
  sent_bytes (trace (run ch (smcGetVariable fd id) s)) = [[0xA1; id]]
  /\ sent_bytes (trace (run ch (smcGetErrorStatus fd) s)) = [[0xA1; 0x00]].
Proof.
  intros Hid. unfold smcGetErrorStatus. rewrite !sent_smcGetVariable.
  rewrite (to_uchar_id id) by exact Hid. split; reflexivity.
Qed.

Lemma smcGetVariable_command_witness :
  0 <= 255 <= 255 /\
  sent_bytes (trace (run scripted (smcGetVariable 3 255)
                         (Script [2] [ReadData [7; 1]])))
  = [[0xA1; 255]].
Proof.
  split; [lia |].
  apply (smcGetVariable_command scripted (Script [2] [ReadData [7; 1]]) 3 255).
  lia.
Defined.

(** C4. When the write does not fail and the read delivers exactly the two
    bytes [b0], [b1] (each in 0..255), [smcGetVariable] returns
    [b0 + 256 * b1], a number in 0..65535; nothing else is applied to it. *)
Theorem smcGetVariable_little_endian
    (ch : Channel) (s s1 s2 : chan_state ch) (fd id w b0 b1 : Z) :
  chan_write ch s fd [0xA1; to_uchar id] 2 = (w, s1) ->
  w <> -1 ->
  chan_read ch s1 fd 2 = (ReadData [b0; b1], s2) ->
  is_byte b0 -> is_byte b1 ->
  result (run ch (smcGetVariable fd id) s) = b0 + 256 * b1
  /\ 0 <= result (run ch (smcGetVariable fd id) s) <= 65535.
Proof.
  intros Hw Hok Hr H0 H1.
  rewrite (run_smcGetVariable ch s fd id w s1 _ s2 Hw Hr).
  destruct (Z.eqb_spec w (-1)) as [E | _]; [contradiction |].
  change (read_ret (ReadData [b0; b1]) =? 2) with true.
  cbn [result read_data nth]. unfold is_byte in *. lia.
Qed.

Lemma smcGetVariable_little_endian_witness :
  chan_write scripted (Script [2] [ReadData [0x34; 0x12]]) 3 [0xA1; to_uchar 20] 2
  = (2, Script [] [ReadData [0x34; 0x12]]) /\
  2 <> -1 /\
  chan_read scripted (Script [] [ReadData [0x34; 0x12]]) 3 2
  = (ReadData [0x34; 0x12], Script [] []) /\
  is_byte 0x34 /\ is_byte 0x12 /\
  result (run scripted (smcGetVariable 3 20) (Script [2] [ReadData [0x34; 0x12]]))
  = 0x1234.
Proof.
  assert (Hok : 2 <> -1) by lia.
  assert (H0 : is_byte 0x34) by (unfold is_byte; lia).
  assert (H1 : is_byte 0x12) by (unfold is_byte; lia).
  split; [reflexivity |]. split; [exact Hok |]. split; [reflexivity |].
  split; [exact H0 |]. split; [exact H1 |].
  exact (proj1 (smcGetVariable_little_endian scripted
                  (Script [2] [ReadData [0x34; 0x12]])
                  (Script [] [ReadData [0x34; 0x12]]) (Script [] [])
                  3 20 2 0x34 0x12 eq_refl Hok eq_refl H0 H1)).
Defined.

(** C5. When the write does not fail but the read obtains fewer than 2
    bytes (one byte, none at end of stream, or a read error),
    [smcGetVariable] returns [SERIAL_ERROR]. *)
Theorem smcGetVariable_short_read
    (ch : Channel) (s s1 s2 : chan_state ch) (fd id w : Z) (r : read_result) :
  chan_write ch s fd [0xA1; to_uchar id] 2 = (w, s1) ->
  w <> -1 ->
  chan_read ch s1 fd 2 = (r, s2) ->
  read_ret r < 2 ->
  result (run ch (smcGetVariable fd id) s) = SERIAL_ERROR.
Proof.
  intros Hw Hok Hr Hshort.
  rewrite (run_smcGetVariable ch s fd id w s1 r s2 Hw Hr).
  destruct (Z.eqb_spec w (-1)) as [E | _]; [contradiction |].
  destruct (Z.eqb_spec (read_ret r) 2) as [E | _]; [lia | reflexivity].
Qed.

Lemma smcGetVariable_short_read_witness :
  chan_write scripted (Script [2] [ReadData []]) 3 [0xA1; to_uchar 0] 2
  = (2, Script [] [ReadData []]) /\
  2 <> -1 /\
  chan_read scripted (Script [] [ReadData []]) 3 2 = (ReadData [], Script [] []) /\
  read_ret (ReadData []) < 2 /\
  result (run scripted (smcGetVariable 3 0) (Script [2] [ReadData []]))
  = SERIAL_ERROR.
Proof.
  assert (Hok : 2 <> -1) by lia.
  assert (Hshort : read_ret (ReadData []) < 2) by (cbn; lia).
  split; [reflexivity |]. split; [exact Hok |]. split; [reflexivity |].
  split; [exact Hshort |].
  exact (smcGetVariable_short_read scripted
           (Script [2] [ReadData []]) (Script [] [ReadData []]) (Script [] [])
           3 0 2 (ReadData []) eq_refl Hok eq_refl Hshort).
Defined.

(** C2, as stated, fails: a short write is not a failure to the code.  The
    channel accepts 1 of the 2 command bytes; [smcGetVariable] goes on to
    read and returns the value it read. *)
Lemma smcGetVariable_short_write_goes_on :
  fst (chan_write scripted (Script [1] [ReadData [0x34; 0x12]]) 3 [0xA1; 0] 2) = 1
  /\ 1 < 2
  /\ run scripted (smcGetVariable 3 0) (Script [1] [ReadData [0x34; 0x12]])
     = {| result := 0x1234;
          trace := [EvWrite 3 [0xA1; 0] 2 1; EvRead 3 2 (ReadData [0x34; 0x12])];
          final := Script [] [] |}
  /\ 0x1234 <> SERIAL_ERROR
  /\ read_attempts [EvWrite 3 [0xA1; 0] 2 1; EvRead 3 2 (ReadData [0x34; 0x12])]
     = 1%nat.
Proof.
  cbn. repeat split; try reflexivity; try lia. discriminate.
Qed.

(** C2, amended.  For every variable id, when the write call signals an
    I/O error (returns -1), [smcGetVariable] returns [SERIAL_ERROR] at once
    and attempts no read: its only calls are the write and [perror].  Any
    other answer of the write, a short count included, is not taken as a
    failure: the function then attempts exactly one read. *)
Theorem smcGetVariable_write_error
    (ch : Channel) (s s1 : chan_state ch) (fd id w : Z) :
  chan_write ch s fd [0xA1; to_uchar id] 2 = (w, s1) ->
  (w = -1 ->
     run ch (smcGetVariable fd id) s =
       {| result := SERIAL_ERROR;
          trace := [EvWrite fd [0xA1; to_uchar id] 2 (-1);
                    EvPerror "error writing"];
          final := s1 |}
     /\ read_attempts (trace (run ch (smcGetVariable fd id) s)) = 0%nat)
  /\ (w <> -1 ->
        read_attempts (trace (run ch (smcGetVariable fd id) s)) = 1%nat).
Proof.
  intros Hw.
  destruct (chan_read ch s1 fd 2) as [r s2] eqn:Hr.
  rewrite (run_smcGetVariable ch s fd id w s1 r s2 Hw Hr).
  split.
  - intros ->. cbn. split; reflexivity.
  - intros Hok. destruct (Z.eqb_spec w (-1)) as [E | _]; [contradiction |].
    destruct (read_ret r =? 2); reflexivity.
Qed.

Lemma smcGetVariable_write_error_witness :
  chan_write scripted (Script [-1] [ReadData [0x34; 0x12]]) 3 [0xA1; to_uchar 20] 2
  = (-1, Script [] [ReadData [0x34; 0x12]])
  /\ result (run scripted (smcGetVariable 3 20) (Script [-1] [ReadData [0x34; 0x12]]))
     = SERIAL_ERROR
  /\ read_attempts
       (trace (run scripted (smcGetVariable 3 20)
                   (Script [-1] [ReadData [0x34; 0x12]]))) = 0%nat.
Proof.
  split; [reflexivity |].
  destruct (proj1 (smcGetVariable_write_error scripted
                     (Script [-1] [ReadData [0x34; 0x12]])
                     (Script [] [ReadData [0x34; 0x12]]) 3 20 (-1) eq_refl)
              eq_refl) as [Hrun Hreads].
  split; [rewrite Hrun; reflexivity | exact Hreads].
Defined.

(** ** Target speed and the error value *)

(** C6. [smcGetTargetSpeed] performs the exchange of [smcGetVariable] with
    variable id 20 (same calls, same final channel state).  When that
    exchange fails, by a write error or by a read that does not deliver 2
    bytes, it returns [SERIAL_ERROR] unchanged; when it delivers the bytes
    [b0], [b1], it returns the 16-bit pattern [b0 + 256 * b1] read as a
    two's-complement number.  Raw 0xFFFF gives -1 and raw 0x0C80 gives 3200. *)
Theorem smcGetTargetSpeed_reinterprets
    (ch : Channel) (s s1 s2 : chan_state ch) (fd w : Z) (r : read_result) :
  chan_write ch s fd [0xA1; 20] 2 = (w, s1) ->
  chan_read ch s1 fd 2 = (r, s2) ->
  trace (run ch (smcGetTargetSpeed fd) s) = trace (run ch (smcGetVariable fd 20) s)
  /\ final (run ch (smcGetTargetSpeed fd) s) = final (run ch (smcGetVariable fd 20) s)
  /\ sent_bytes (trace (run ch (smcGetTargetSpeed fd) s)) = [[0xA1; 20]]
  /\ (w = -1 \/ read_ret r <> 2 ->
        result (run ch (smcGetVariable fd 20) s) = SERIAL_ERROR
        /\ result (run ch (smcGetTargetSpeed fd) s) = SERIAL_ERROR)
  /\ (forall b0 b1,
        w <> -1 -> r = ReadData [b0; b1] -> is_byte b0 -> is_byte b1 ->
        result (run ch (smcGetVariable fd 20) s) = b0 + 256 * b1
        /\ result (run ch (smcGetTargetSpeed fd) s)
           = twos_complement16 (b0 + 256 * b1))
  /\ twos_complement16 0xFFFF = -1
  /\ twos_complement16 0x0C80 = 3200.
Proof.
  intros Hw Hr. rewrite run_smcGetTargetSpeed. cbn zeta. cbn [trace final result].
  split; [reflexivity |]. split; [reflexivity |].
  split; [apply sent_smcGetVariable |].
  rewrite (run_smcGetVariable ch s fd 20 w s1 r s2 Hw Hr).
  split; [| split; [| split; reflexivity]].
  - intros [-> | Hshort]; [split; reflexivity |].
    destruct (w =? -1); [split; reflexivity |].
    destruct (Z.eqb_spec (read_ret r) 2) as [E | _]; [contradiction |].
    split; reflexivity.
  - intros b0 b1 Hok -> H0 H1.
    destruct (Z.eqb_spec w (-1)) as [E | _]; [contradiction |].
    change (read_ret (ReadData [b0; b1]) =? 2) with true.
    cbn [result read_data nth]. split; [reflexivity |].
    unfold is_byte in *.
    destruct (Z.eqb_spec (b0 + 256 * b1) SERIAL_ERROR) as [E | _];
      [unfold SERIAL_ERROR in E; lia |].
    apply to_short_twos_complement. lia.
Qed.

Lemma smcGetTargetSpeed_reinterprets_witness :
  chan_write scripted (Script [2] [ReadData [0xFF; 0xFF]]) 3 [0xA1; 20] 2
  = (2, Script [] [ReadData [0xFF; 0xFF]])
  /\ chan_read scripted (Script [] [ReadData [0xFF; 0xFF]]) 3 2
     = (ReadData [0xFF; 0xFF], Script [] [])
  /\ result (run scripted (smcGetTargetSpeed 3) (Script [2] [ReadData [0xFF; 0xFF]]))
     = -1.
Proof.
  split; [reflexivity |]. split; [reflexivity |].
  assert (Hok : 2 <> -1) by lia.
  assert (Hb : is_byte 0xFF) by (unfold is_byte; lia).
  pose proof (smcGetTargetSpeed_reinterprets scripted
                (Script [2] [ReadData [0xFF; 0xFF]])
                (Script [] [ReadData [0xFF; 0xFF]]) (Script [] [])
                3 2 (ReadData [0xFF; 0xFF]) eq_refl eq_refl) as H.
  destruct H as (_ & _ & _ & _ & Hdecode & _).
  exact (proj2 (Hdecode 0xFF 0xFF Hok eq_refl Hb Hb)).
Defined.

(** C3, as stated, fails: the sentinel -9999 lies inside the signed 16-bit
    range.  The response bytes F1 D8 (raw 55537) of a successful exchange
    make [smcGetTargetSpeed] return exactly [SERIAL_ERROR]. *)
Lemma smcGetTargetSpeed_success_equals_sentinel :
  is_byte 0xF1 /\ is_byte 0xD8
  /\ -32768 <= SERIAL_ERROR <= 32767
  /\ run scripted (smcGetTargetSpeed 3) (Script [2] [ReadData [0xF1; 0xD8]])
     = {| result := SERIAL_ERROR;
          trace := [EvWrite 3 [0xA1; 20] 2 2; EvRead 3 2 (ReadData [0xF1; 0xD8])];
          final := Script [] [] |}.
Proof.
  unfold is_byte, SERIAL_ERROR. repeat split; try lia.
Qed.

(** C3, amended.  A successful exchange of [smcGetVariable], for every
    variable id and whatever the two response bytes, never returns
    [SERIAL_ERROR].  A successful exchange of [smcGetTargetSpeed] returns a
    value equal to [SERIAL_ERROR] for one response only, [b0 = 0xF1] and
    [b1 = 0xD8]: the sentinel lies inside the signed 16-bit range, and
    outside the documented speed range -3200..3200. *)
Theorem smcGetTargetSpeed_sentinel_overlap
    (ch : Channel) (s : chan_state ch) (fd b0 b1 : Z) :
  is_byte b0 -> is_byte b1 ->
  (forall id w s1 s2,
     chan_write ch s fd [0xA1; to_uchar id] 2 = (w, s1) ->
     w <> -1 ->
     chan_read ch s1 fd 2 = (ReadData [b0; b1], s2) ->
     result (run ch (smcGetVariable fd id) s) <> SERIAL_ERROR)
  /\ (forall w s1 s2,
        chan_write ch s fd [0xA1; 20] 2 = (w, s1) ->
        w <> -1 ->
        chan_read ch s1 fd 2 = (ReadData [b0; b1], s2) ->
        (result (run ch (smcGetTargetSpeed fd) s) = SERIAL_ERROR
         <-> b0 = 0xF1 /\ b1 = 0xD8))
  /\ -32768 <= SERIAL_ERROR <= 32767
  /\ ~ (-3200 <= SERIAL_ERROR <= 3200).
Proof.
  intros H0 H1. split; [| split; [| unfold SERIAL_ERROR; lia]].
  - intros id w s1 s2 Hw Hok Hr.
    rewrite (run_smcGetVariable ch s fd id w s1 _ s2 Hw Hr).
    destruct (Z.eqb_spec w (-1)) as [E | _]; [contradiction |].
    change (read_ret (ReadData [b0; b1]) =? 2) with true.
    cbn [result read_data nth]. unfold is_byte, SERIAL_ERROR in *. lia.
  - intros w s1 s2 Hw Hok Hr.
    rewrite run_smcGetTargetSpeed. cbn zeta. cbn [result].
    rewrite (run_smcGetVariable ch s fd 20 w s1 _ s2 Hw Hr).
    destruct (Z.eqb_spec w (-1)) as [E | _]; [contradiction |].
    change (read_ret (ReadData [b0; b1]) =? 2) with true.
    cbn [result read_data nth]. unfold is_byte in *.
    destruct (Z.eqb_spec (b0 + 256 * b1) SERIAL_ERROR) as [E | _];
      [unfold SERIAL_ERROR in E; lia |].
    unfold SERIAL_ERROR, to_short.
    split.
    + intros E. Z.div_mod_to_equations. lia.
    + intros [-> ->]. reflexivity.
Qed.

Lemma smcGetTargetSpeed_sentinel_overlap_witness :
  is_byte 0xF1 /\ is_byte 0xD8
  /\ chan_write scripted (Script [2] [ReadData [0xF1; 0xD8]]) 3
       [0xA1; to_uchar 33] 2
     = (2, Script [] [ReadData [0xF1; 0xD8]])
  /\ chan_write scripted (Script [2] [ReadData [0xF1; 0xD8]]) 3 [0xA1; 20] 2
     = (2, Script [] [ReadData [0xF1; 0xD8]])
  /\ 2 <> -1
  /\ chan_read scripted (Script [] [ReadData [0xF1; 0xD8]]) 3 2
     = (ReadData [0xF1; 0xD8], Script [] [])
  /\ result (run scripted (smcGetVariable 3 33) (Script [2] [ReadData [0xF1; 0xD8]]))
     <> SERIAL_ERROR
  /\ (result (run scripted (smcGetTargetSpeed 3)
                  (Script [2] [ReadData [0xF1; 0xD8]])) = SERIAL_ERROR
      <-> 0xF1 = 0xF1 /\ 0xD8 = 0xD8).
Proof.
  assert (Hok : 2 <> -1) by lia.
  assert (H0 : is_byte 0xF1) by (unfold is_byte; lia).
  assert (H1 : is_byte 0xD8) by (unfold is_byte; lia).
  split; [exact H0 |]. split; [exact H1 |].
  split; [reflexivity |]. split; [reflexivity |]. split; [exact Hok |].
  split; [reflexivity |].
  destruct (smcGetTargetSpeed_sentinel_overlap scripted
              (Script [2] [ReadData [0xF1; 0xD8]]) 3 0xF1 0xD8 H0 H1)
    as (Hvar & Hspeed & _).
  split.
  - exact (Hvar 33 2 (Script [] [ReadData [0xF1; 0xD8]]) (Script [] [])
             eq_refl Hok eq_refl).
  - exact (Hspeed 2 (Script [] [ReadData [0xF1; 0xD8]]) (Script [] [])
             eq_refl Hok eq_refl).
Defined.

(** ** Exit Safe Start *)

(** C8, as stated, fails: success is not tied to the byte being written.
    The write answers 0 (nothing written, no error); [smcExitSafeStart]
    returns 0, its success value. *)
Lemma smcExitSafeStart_success_without_byte :
  fst (chan_write scripted (Script [0] []) 3 [0x83] 1) = 0
  /\ 0 < 1
  /\ run scripted (smcExitSafeStart 3) (Script [0] [])
     = {| result := 0; trace := [EvWrite 3 [0x83] 1 0]; final := Script [] [] |}.
Proof.
  split; [reflexivity |]. split; [lia | reflexivity].
Qed.

(** C8, amended.  [smcExitSafeStart] hands exactly the single byte 0x83 to
    [write] and performs no read.  It returns 0 (success) exactly when the
    write call does not signal an error (its answer is not -1), whether or
    not the byte was written, and [SERIAL_ERROR] exactly when the write
    call answers -1. *)
Theorem smcExitSafeStart_behaviour
    (ch : Channel) (s s1 : chan_state ch) (fd w : Z) :
  chan_write ch s fd [0x83] 1 = (w, s1) ->
  sent_bytes (trace (run ch (smcExitSafeStart fd) s)) = [[0x83]]
  /\ read_attempts (trace (run ch (smcExitSafeStart fd) s)) = 0%nat
  /\ (result (run ch (smcExitSafeStart fd) s) = 0 <-> w <> -1)
  /\ (result (run ch (smcExitSafeStart fd) s) = SERIAL_ERROR <-> w = -1)
  /\ final (run ch (smcExitSafeStart fd) s) = s1.
Proof.
  intros Hw. rewrite (run_smcExitSafeStart ch s fd w s1 Hw).
  unfold SERIAL_ERROR.
  destruct (Z.eqb_spec w (-1)) as [E | E]; cbn [result trace final];
    (split; [reflexivity |]); (split; [reflexivity |]);
    (split; [| split; [| reflexivity]]); split; intros H;
    try reflexivity; try assumption; try discriminate; try contradiction.
Qed.

Lemma smcExitSafeStart_behaviour_witness :
  chan_write scripted (Script [1] []) 3 [0x83] 1 = (1, Script [] [])
  /\ sent_bytes (trace (run scripted (smcExitSafeStart 3) (Script [1] [])))
     = [[0x83]]
  /\ read_attempts (trace (run scripted (smcExitSafeStart 3) (Script [1] [])))
     = 0%nat.
Proof.
  split; [reflexivity |].
  pose proof (smcExitSafeStart_behaviour scripted (Script [1] []) (Script [] [])
                3 1 eq_refl) as H.
  destruct H as (Hsent & Hreads & _).
  split; [exact Hsent | exact Hreads].
Defined.

(** * Further properties of the protocol functions *)

Section MoreBehaviour.

Variable ch : Channel.

Implicit Types (s : chan_state ch) (fd w : Z) (r : read_result).

Lemma sent_smcExitSafeStart s fd :
  sent_bytes (trace (run ch (smcExitSafeStart fd) s)) = [[0x83]].
Proof.
  destruct (chan_write ch s fd [0x83] 1) as [w s1] eqn:Hw.
  rewrite (run_smcExitSafeStart ch s fd w s1 Hw).
  destruct (w =? -1); reflexivity.
Qed.

Lemma sent_smcGetTargetSpeed s fd :
  sent_bytes (trace (run ch (smcGetTargetSpeed fd) s)) = [[0xA1; 20]].
Proof.
  rewrite run_smcGetTargetSpeed. cbn zeta. cbn [trace].
  apply sent_smcGetVariable.
Qed.

End MoreBehaviour.

(** ** Set Target Speed, any speed *)

(** X1. Whatever the speed and whatever the channel, [smcSetTargetSpeed]
    makes one [write] of 3 bytes and no [read]; it returns [SERIAL_ERROR],
    after one [perror], when that write answered -1, and 0 otherwise. *)
Theorem smcSetTargetSpeed_one_write
    (ch : Channel) (s : chan_state ch) (fd speed : Z) :
  exists buf w,
    trace (run ch (smcSetTargetSpeed fd speed) s)
    = EvWrite fd buf 3 w :: (if w =? -1 then [EvPerror "error writing"] else [])
    /\ List.length buf = 3%nat
    /\ result (run ch (smcSetTargetSpeed fd speed) s)
       = (if w =? -1 then SERIAL_ERROR else 0)
    /\ read_attempts (trace (run ch (smcSetTargetSpeed fd speed) s)) = 0%nat.
Proof.
  destruct (chan_write ch s fd (SetTargetSpeed_command speed) 3) as [w s1] eqn:Hw.
  exists (SetTargetSpeed_command speed), w.
  rewrite (run_smcSetTargetSpeed ch s fd speed w s1 Hw).
  destruct (w =? -1); repeat split; reflexivity.
Qed.

(** X2. For every speed, in range or not, the three bytes sent are a
    direction byte 0x85 or 0x86 followed by two data bytes with the top bit
    clear: the first within 0..31 and the second within 0..127. *)
Theorem smcSetTargetSpeed_byte_ranges
    (ch : Channel) (s : chan_state ch) (fd speed : Z) :
  exists d low high,
    sent_bytes (trace (run ch (smcSetTargetSpeed fd speed) s)) = [[d; low; high]]
    /\ (d = 0x85 \/ d = 0x86)
    /\ 0 <= low <= 31
    /\ 0 <= high <= 127.
Proof.
  rewrite sent_smcSetTargetSpeed, SetTargetSpeed_command_abs.
  do 3 eexists. split; [reflexivity |].
  split; [destruct (speed <? 0); [right | left]; reflexivity |].
  split; Z.div_mod_to_equations; lia.
Qed.

(** X3. A speed and its opposite are sent with the same two data bytes
    and differ in the direction byte only: 0x85 for the positive one, 0x86
    for the negative one. *)
Theorem smcSetTargetSpeed_sign_symmetry
    (ch : Channel) (s : chan_state ch) (fd speed : Z) :
  0 < speed ->
  exists low high,
    sent_bytes (trace (run ch (smcSetTargetSpeed fd speed) s))
    = [[0x85; low; high]]
    /\ sent_bytes (trace (run ch (smcSetTargetSpeed fd (- speed)) s))
       = [[0x86; low; high]].
Proof.
  intros Hpos. rewrite !sent_smcSetTargetSpeed, !SetTargetSpeed_command_abs.
  rewrite Z.abs_opp.
  destruct (Z.ltb_spec speed 0) as [H | _]; [lia |].
  destruct (Z.ltb_spec (- speed) 0) as [_ | H]; [| lia].
  do 2 eexists. split; reflexivity.
Qed.

Lemma smcSetTargetSpeed_sign_symmetry_witness :
  0 < 1234 /\
  exists low high,
    sent_bytes (trace (run scripted (smcSetTargetSpeed 3 1234) (Script [3] [])))
    = [[0x85; low; high]]
    /\ sent_bytes (trace (run scripted (smcSetTargetSpeed 3 (- 1234))
                              (Script [3] [])))
       = [[0x86; low; high]].
Proof.
  split; [lia |].
  apply (smcSetTargetSpeed_sign_symmetry scripted (Script [3] []) 3 1234).
  lia.
Defined.

(** X4. On magnitudes up to 4095 the encoding is one to one: two speeds
    whose commands carry the same bytes are the same speed. *)
Theorem smcSetTargetSpeed_injective
    (ch : Channel) (s : chan_state ch) (fd speed speed' : Z) :
  Z.abs speed <= 4095 ->
  Z.abs speed' <= 4095 ->
  sent_bytes (trace (run ch (smcSetTargetSpeed fd speed) s))
  = sent_bytes (trace (run ch (smcSetTargetSpeed fd speed') s)) ->
  speed = speed'.
Proof.
  intros Ha Hb. rewrite !sent_smcSetTargetSpeed, !SetTargetSpeed_command_abs.
  intros Heq. injection Heq as Hd Hlow Hhigh.
  assert (Hmag : Z.abs speed = Z.abs speed')
    by (Z.div_mod_to_equations; lia).
  destruct (Z.ltb_spec speed 0), (Z.ltb_spec speed' 0);
    try discriminate; lia.
Qed.

Lemma smcSetTargetSpeed_injective_witness :
  Z.abs (-3200) <= 4095 /\ Z.abs (-3200) <= 4095 /\
  sent_bytes (trace (run scripted (smcSetTargetSpeed 3 (-3200)) (Script [3] [])))
  = sent_bytes (trace (run scripted (smcSetTargetSpeed 3 (-3200)) (Script [3] [])))
  /\ -3200 = -3200.
Proof.
  assert (H : Z.abs (-3200) <= 4095) by (cbn; lia).
  split; [exact H |]. split; [exact H |]. split; [reflexivity |].
  exact (smcSetTargetSpeed_injective scripted (Script [3] []) 3 (-3200) (-3200)
           H H eq_refl).
Defined.

(** ** Get Variable: errors and diagnostics *)

(** X5. When the bytes a read delivers are bytes, [smcGetVariable] returns
    [SERIAL_ERROR] exactly when the write answered -1 or the read did not
    return 2.  The two failures give the same return value and differ in
    the message handed to [perror]; a successful call makes no [perror]. *)
Theorem smcGetVariable_error_iff
    (ch : Channel) (s s1 s2 : chan_state ch) (fd id w : Z) (r : read_result) :
  chan_write ch s fd [0xA1; to_uchar id] 2 = (w, s1) ->
  chan_read ch s1 fd 2 = (r, s2) ->
  Forall is_byte (read_data r) ->
  (result (run ch (smcGetVariable fd id) s) = SERIAL_ERROR
   <-> w = -1 \/ read_ret r <> 2)
  /\ perror_messages (trace (run ch (smcGetVariable fd id) s))
     = (if w =? -1 then ["error writing"%string]
        else if read_ret r =? 2 then [] else ["error reading"%string])
  /\ (result (run ch (smcGetVariable fd id) s) = SERIAL_ERROR
      <-> perror_messages (trace (run ch (smcGetVariable fd id) s)) <> []).
Proof.
  intros Hw Hr Hbytes.
  rewrite (run_smcGetVariable ch s fd id w s1 r s2 Hw Hr).
  destruct (Z.eqb_spec w (-1)) as [Ew | Ew].
  { cbn [result trace perror_messages].
    repeat split; auto; intros; discriminate. }
  destruct (Z.eqb_spec (read_ret r) 2) as [Er | Er].
  2: { cbn [result trace perror_messages].
       repeat split; auto; intros; discriminate. }
  destruct r as [| bytes]; [discriminate |].
  destruct bytes as [| b0 [| b1 [| b2 rest]]]; try discriminate;
    [| cbn [read_ret List.length] in Er; lia].
  cbn [read_data] in Hbytes. inversion Hbytes as [| ? ? H0 Htl]; subst.
  inversion Htl as [| ? ? H1 _]; subst.
  cbn [result trace perror_messages read_data nth].
  unfold is_byte, SERIAL_ERROR in *.
  split; [| split; [reflexivity |]]; split; intros H;
    try lia; try (destruct H; congruence); congruence.
Qed.

Lemma smcGetVariable_error_iff_witness :
  chan_write scripted (Script [2] [ReadData [5]]) 3 [0xA1; to_uchar 20] 2
  = (2, Script [] [ReadData [5]])
  /\ chan_read scripted (Script [] [ReadData [5]]) 3 2
     = (ReadData [5], Script [] [])
  /\ Forall is_byte (read_data (ReadData [5]))
  /\ perror_messages
       (trace (run scripted (smcGetVariable 3 20) (Script [2] [ReadData [5]])))
     = ["error reading"%string].
Proof.
  assert (Hb : Forall is_byte (read_data (ReadData [5]))).
  { constructor; [unfold is_byte; lia | constructor]. }
  split; [reflexivity |]. split; [reflexivity |]. split; [exact Hb |].
  pose proof (smcGetVariable_error_iff scripted
                (Script [2] [ReadData [5]]) (Script [] [ReadData [5]])
                (Script [] []) 3 20 2 (ReadData [5]) eq_refl eq_refl Hb) as H.
  destruct H as (_ & Hmsg & _). exact Hmsg.
Defined.

(** X6. The value [smcGetTargetSpeed] returns after a successful exchange
    lies in -32768..32767, and writing it back as a 16-bit two's-complement
    number, low byte first, gives the two response bytes again. *)
Theorem smcGetTargetSpeed_round_trip
    (ch : Channel) (s s1 s2 : chan_state ch) (fd w b0 b1 : Z) :
  chan_write ch s fd [0xA1; 20] 2 = (w, s1) ->
  w <> -1 ->
  chan_read ch s1 fd 2 = (ReadData [b0; b1], s2) ->
  is_byte b0 -> is_byte b1 ->
  -32768 <= result (run ch (smcGetTargetSpeed fd) s) <= 32767
  /\ result (run ch (smcGetTargetSpeed fd) s) mod 256 = b0
  /\ (result (run ch (smcGetTargetSpeed fd) s) / 256) mod 256 = b1.
Proof.
  intros Hw Hok Hr H0 H1.
  rewrite run_smcGetTargetSpeed. cbn zeta. cbn [result].
  rewrite (run_smcGetVariable ch s fd 20 w s1 _ s2 Hw Hr).
  destruct (Z.eqb_spec w (-1)) as [E | _]; [contradiction |].
  change (read_ret (ReadData [b0; b1]) =? 2) with true.
  cbn [result read_data nth]. unfold is_byte in *.
  destruct (Z.eqb_spec (b0 + 256 * b1) SERIAL_ERROR) as [E | _];
    [unfold SERIAL_ERROR in E; lia |].
  unfold to_short. repeat split; Z.div_mod_to_equations; lia.
Qed.

Lemma smcGetTargetSpeed_round_trip_witness :
  chan_write scripted (Script [2] [ReadData [0x80; 0xF3]]) 3 [0xA1; 20] 2
  = (2, Script [] [ReadData [0x80; 0xF3]])
  /\ 2 <> -1
  /\ chan_read scripted (Script [] [ReadData [0x80; 0xF3]]) 3 2
     = (ReadData [0x80; 0xF3], Script [] [])
  /\ is_byte 0x80 /\ is_byte 0xF3
  /\ -32768
     <= result (run scripted (smcGetTargetSpeed 3)
                    (Script [2] [ReadData [0x80; 0xF3]]))
     <= 32767.
Proof.
  assert (Hok : 2 <> -1) by lia.
  assert (H0 : is_byte 0x80) by (unfold is_byte; lia).
  assert (H1 : is_byte 0xF3) by (unfold is_byte; lia).
  split; [reflexivity |]. split; [exact Hok |]. split; [reflexivity |].
  split; [exact H0 |]. split; [exact H1 |].
  exact (proj1 (smcGetTargetSpeed_round_trip scripted
                  (Script [2] [ReadData [0x80; 0xF3]])
                  (Script [] [ReadData [0x80; 0xF3]]) (Script [] [])
                  3 2 0x80 0xF3 eq_refl Hok eq_refl H0 H1)).
Defined.

(** X7. After a successful exchange, bit [i] of the value returned by
    [smcGetErrorStatus] is bit [i] of the first response byte for [i < 8]
    and bit [i - 8] of the second one from there on; the value is 0
    exactly when both bytes are 0. *)
Theorem smcGetErrorStatus_bits
    (ch : Channel) (s s1 s2 : chan_state ch) (fd w b0 b1 : Z) :
  chan_write ch s fd [0xA1; 0] 2 = (w, s1) ->
  w <> -1 ->
  chan_read ch s1 fd 2 = (ReadData [b0; b1], s2) ->
  is_byte b0 -> is_byte b1 ->
  (forall i, 0 <= i ->
     Z.testbit (result (run ch (smcGetErrorStatus fd) s)) i
     = if i <? 8 then Z.testbit b0 i else Z.testbit b1 (i - 8))
  /\ (result (run ch (smcGetErrorStatus fd) s) = 0 <-> b0 = 0 /\ b1 = 0).
Proof.
  intros Hw Hok Hr H0 H1. unfold smcGetErrorStatus.
  rewrite (run_smcGetVariable ch s fd 0 w s1 _ s2 Hw Hr).
  destruct (Z.eqb_spec w (-1)) as [E | _]; [contradiction |].
  change (read_ret (ReadData [b0; b1]) =? 2) with true.
  cbn [result read_data nth]. unfold is_byte in *.
  split; [| lia].
  intros i Hi. destruct (Z.ltb_spec i 8) as [Hlow | Hhigh].
  - rewrite <- (Z.mod_pow2_bits_low (b0 + 256 * b1) 8 i) by lia.
    f_equal. change (2 ^ 8) with 256. Z.div_mod_to_equations. lia.
  - replace i with ((i - 8) + 8) at 1 by lia.
    rewrite <- (Z.div_pow2_bits (b0 + 256 * b1) 8 (i - 8)) by lia.
    f_equal. change (2 ^ 8) with 256. Z.div_mod_to_equations. lia.
Qed.

Lemma smcGetErrorStatus_bits_witness :
  chan_write scripted (Script [2] [ReadData [0x01; 0x02]]) 3 [0xA1; 0] 2
  = (2, Script [] [ReadData [0x01; 0x02]])
  /\ 2 <> -1
  /\ chan_read scripted (Script [] [ReadData [0x01; 0x02]]) 3 2
     = (ReadData [0x01; 0x02], Script [] [])
  /\ is_byte 0x01 /\ is_byte 0x02
  /\ Z.testbit (result (run scripted (smcGetErrorStatus 3)
                            (Script [2] [ReadData [0x01; 0x02]]))) 9
     = Z.testbit 0x02 1.
Proof.
  assert (Hok : 2 <> -1) by lia.
  assert (H0 : is_byte 0x01) by (unfold is_byte; lia).
  assert (H1 : is_byte 0x02) by (unfold is_byte; lia).
  assert (H9 : 0 <= 9) by lia.
  split; [reflexivity |]. split; [exact Hok |]. split; [reflexivity |].
  split; [exact H0 |]. split; [exact H1 |].
  exact (proj1 (smcGetErrorStatus_bits scripted
                  (Script [2] [ReadData [0x01; 0x02]])
                  (Script [] [ReadData [0x01; 0x02]]) (Script [] [])
                  3 2 0x01 0x02 eq_refl Hok eq_refl H0 H1) 9 H9).
Defined.

(** ** The demonstration program *)

Lemma serial_events_app (a b : list sys_event) :
  serial_events (a ++ b) = serial_events a ++ serial_events b.
Proof.
  induction a as [| e a IH]; [reflexivity |].
  destruct e; cbn; rewrite IH; reflexivity.
Qed.

Lemma serial_events_map (tr : list event) :
  serial_events (map EvSerial tr) = tr.
Proof. induction tr as [| e tr IH]; [reflexivity |]. cbn. rewrite IH. reflexivity. Qed.

Lemma printed_app (a b : list sys_event) :
  printed (a ++ b) = printed a ++ printed b.
Proof.
  induction a as [| e a IH]; [reflexivity |].
  destruct e; cbn; rewrite IH; reflexivity.
Qed.

Lemma printed_map (tr : list event) : printed (map EvSerial tr) = [].
Proof. induction tr as [| e tr IH]; [reflexivity |]. exact IH. Qed.

Lemma tcsetattr_calls_app (a b : list sys_event) :
  tcsetattr_calls (a ++ b) = tcsetattr_calls a ++ tcsetattr_calls b.
Proof.
  induction a as [| e a IH]; [reflexivity |].
  destruct e; cbn; rewrite IH; reflexivity.
Qed.

Lemma tcsetattr_calls_map (tr : list event) :
  tcsetattr_calls (map EvSerial tr) = [].
Proof. induction tr as [| e tr IH]; [reflexivity |]. exact IH. Qed.

Lemma sent_bytes_app (a b : list event) :
  sent_bytes (a ++ b) = sent_bytes a ++ sent_bytes b.
Proof.
  induction a as [| e a IH]; [reflexivity |].
  destruct e; cbn; rewrite IH; reflexivity.
Qed.

Lemma after_record {S A : Type} (es c : list sys_event) (a : A) (f : S) :
  after es {| exit_value := a; calls := c; world_final := f |}
  = {| exit_value := a; calls := es ++ c; world_final := f |}.
Proof. reflexivity. Qed.

Section RunSys.

Variable W : World.

Implicit Types (s : world_state W).

Lemma run_sys_done {A : Type} (a : A) s :
  run_sys W (Done a) s = {| exit_value := a; calls := []; world_final := s |}.
Proof. reflexivity. Qed.

Lemma run_sys_open {A : Type} path flags (k : Z -> sys A) s :
  run_sys W (SysOpen path flags k) s =
    let '(fd, s1) := world_open W s path flags in
    after [EvOpen path flags fd] (run_sys W (k fd) s1).
Proof. reflexivity. Qed.

Lemma run_sys_tcgetattr {A : Type} fd (k : termios -> sys A) s :
  run_sys W (SysTcgetattr fd k) s =
    let '(t, s1) := world_tcgetattr W s fd in
    after [EvTcgetattr fd t] (run_sys W (k t) s1).
Proof. reflexivity. Qed.

Lemma run_sys_tcsetattr {A : Type} fd actions options (k : sys A) s :
  run_sys W (SysTcsetattr fd actions options k) s =
    after [EvTcsetattr fd actions options]
      (run_sys W k (world_after W s (EvTcsetattr fd actions options))).
Proof. reflexivity. Qed.

Lemma run_sys_printf {A : Type} format args (k : sys A) s :
  run_sys W (SysPrintf format args k) s =
    after [EvPrintf format args]
      (run_sys W k (world_after W s (EvPrintf format args))).
Proof. reflexivity. Qed.

Lemma run_sys_usleep {A : Type} usec (k : sys A) s :
  run_sys W (SysUsleep usec k) s =
    after [EvUsleep usec] (run_sys W k (world_after W s (EvUsleep usec))).
Proof. reflexivity. Qed.

Lemma run_sys_close {A : Type} fd (k : sys A) s :
  run_sys W (SysClose fd k) s =
    after [EvClose fd] (run_sys W k (world_after W s (EvClose fd))).
Proof. reflexivity. Qed.

Lemma run_sys_report {A : Type} msg (k : sys A) s :
  run_sys W (SysReport msg k) s =
    after [EvSerial (EvPerror msg)]
      (run_sys W k (world_after W s (EvSerial (EvPerror msg)))).
Proof. reflexivity. Qed.

Lemma run_sys_serial {A : Type} (p : io Z) (k : Z -> sys A) s :
  run_sys W (Serial p k) s =
    after (map EvSerial (trace (run (world_chan W) p s)))
      (run_sys W (k (result (run (world_chan W) p s)))
         (final (run (world_chan W) p s))).
Proof. reflexivity. Qed.

End RunSys.

(** Runs the head call of a [sys] program. *)
Ltac sys_step :=
  first [ rewrite run_sys_tcsetattr | rewrite run_sys_printf
        | rewrite run_sys_usleep | rewrite run_sys_close
        | rewrite run_sys_report | rewrite run_sys_serial
        | rewrite run_sys_done ].

Section Main.

Variable P : Posix.
Variable W : World.

Let ch : Channel := world_chan W.

(** The calls of [main] once [open] has given a descriptor: the five
    protocol calls in order, each run on the state its predecessors left. *)
Lemma run_main_opened (s s1 s2 : world_state W) (fd : Z) (t : termios) :
  world_open W s "/dev/ttyACM0" (Z.lor (O_RDWR P) (O_NOCTTY P)) = (fd, s1) ->
  fd <> -1 ->
  world_tcgetattr W s1 fd = (t, s2) ->
  let e_set := EvTcsetattr fd (TCSANOW P) (raw_options P t) in
  let o1 := run ch (smcExitSafeStart fd) (world_after W s2 e_set) in
  let o2 := run ch (smcGetErrorStatus fd) (final o1) in
  let e_status := EvPrintf "Error status: 0x%04x\n" [result o2] in
  let o3 := run ch (smcGetTargetSpeed fd) (world_after W (final o2) e_status) in
  let e_speed := EvPrintf "Current Target Speed is %d.\n" [result o3] in
  let newSpeed := if result o3 <=? 0 then 3200 else -3200 in
  let e_new := EvPrintf "Setting Target Speed to %d.\n" [newSpeed] in
  let s3 := world_after W
              (world_after W (world_after W (final o3) e_speed)
                 (EvUsleep 9000000)) e_new in
  let o4 := run ch (smcSetTargetSpeed fd newSpeed) s3 in
  let o5 := run ch (smcSetTargetSpeed fd 0)
                (world_after W (final o4) (EvUsleep 9000000)) in
  run_sys W (main P) s =
    {| exit_value := 0;
       calls :=
         EvOpen "/dev/ttyACM0" (Z.lor (O_RDWR P) (O_NOCTTY P)) fd
         :: EvTcgetattr fd t :: e_set
         :: map EvSerial (trace o1)
         ++ map EvSerial (trace o2)
         ++ e_status
         :: map EvSerial (trace o3)
         ++ e_speed :: EvUsleep 9000000 :: e_new
         :: map EvSerial (trace o4)
         ++ EvUsleep 9000000
         :: map EvSerial (trace o5)
         ++ [EvClose fd];
       world_final := world_after W (final o5) (EvClose fd) |}.
Proof.
  intros Hopen Hfd Hget e_set o1 o2 e_status o3 e_speed newSpeed e_new s3 o4 o5.
  unfold main.
  cbn [bind ret Monad_sys sys_bind open report tcgetattr tcsetattr printf
       usleep close serial].
  rewrite run_sys_open, Hopen.
  destruct (Z.eqb_spec fd (-1)) as [E | _]; [contradiction |].
  rewrite run_sys_tcgetattr, Hget.
  do 13 sys_step.
  rewrite !after_record. reflexivity.
Qed.

End Main.

(** Decides [Forall (on_fd fd)] on an explicit trace. *)
Ltac on_fd_trace :=
  repeat (apply Forall_cons; [unfold on_fd; cbn [event_fd]; auto |]);
  apply Forall_nil.

Section Descriptor.

Variable ch : Channel.

Implicit Types (s : chan_state ch) (fd : Z).

Lemma on_fd_smcGetVariable s fd id :
  Forall (on_fd fd) (trace (run ch (smcGetVariable fd id) s)).
Proof.
  destruct (chan_write ch s fd [0xA1; to_uchar id] 2) as [w s1] eqn:Hw.
  destruct (chan_read ch s1 fd 2) as [r s2] eqn:Hr.
  rewrite (run_smcGetVariable ch s fd id w s1 r s2 Hw Hr).
  destruct (w =? -1); [| destruct (read_ret r =? 2)]; on_fd_trace.
Qed.

Lemma on_fd_smcGetTargetSpeed s fd :
  Forall (on_fd fd) (trace (run ch (smcGetTargetSpeed fd) s)).
Proof.
  rewrite run_smcGetTargetSpeed. cbn zeta. cbn [trace].
  apply on_fd_smcGetVariable.
Qed.

Lemma on_fd_smcExitSafeStart s fd :
  Forall (on_fd fd) (trace (run ch (smcExitSafeStart fd) s)).
Proof.
  destruct (chan_write ch s fd [0x83] 1) as [w s1] eqn:Hw.
  rewrite (run_smcExitSafeStart ch s fd w s1 Hw).
  destruct (w =? -1); on_fd_trace.
Qed.

Lemma on_fd_smcSetTargetSpeed s fd speed :
  Forall (on_fd fd) (trace (run ch (smcSetTargetSpeed fd speed) s)).
Proof.
  destruct (chan_write ch s fd (SetTargetSpeed_command speed) 3) as [w s1] eqn:Hw.
  rewrite (run_smcSetTargetSpeed ch s fd speed w s1 Hw).
  destruct (w =? -1); on_fd_trace.
Qed.

End Descriptor.

(** X8. Every [write] and every [read] that a run of one of the five
    protocol functions makes is made on the descriptor [fd] it was given.
    (Their only other call, [perror], takes no descriptor.) *)
Theorem protocol_calls_on_fd
    (ch : Channel) (s : chan_state ch) (fd id speed : Z) :
  Forall (on_fd fd) (trace (run ch (smcGetVariable fd id) s))
  /\ Forall (on_fd fd) (trace (run ch (smcGetTargetSpeed fd) s))
  /\ Forall (on_fd fd) (trace (run ch (smcGetErrorStatus fd) s))
  /\ Forall (on_fd fd) (trace (run ch (smcExitSafeStart fd) s))
  /\ Forall (on_fd fd) (trace (run ch (smcSetTargetSpeed fd speed) s)).
Proof.
  split; [apply on_fd_smcGetVariable |].
  split; [apply on_fd_smcGetTargetSpeed |].
  split; [apply on_fd_smcGetVariable |].
  split; [apply on_fd_smcExitSafeStart | apply on_fd_smcSetTargetSpeed].
Qed.

(** X9. When [open] fails, [main] reports the device name with [perror]
    and returns 1; it makes no other call, so nothing is written, read or
    closed. *)
Theorem main_open_failure
    (P : Posix) (W : World) (s s1 : world_state W) :
  world_open W s "/dev/ttyACM0" (Z.lor (O_RDWR P) (O_NOCTTY P)) = (-1, s1) ->
  exit_value (run_sys W (main P) s) = 1
  /\ calls (run_sys W (main P) s)
     = [EvOpen "/dev/ttyACM0" (Z.lor (O_RDWR P) (O_NOCTTY P)) (-1);
        EvSerial (EvPerror "/dev/ttyACM0")].
Proof.
  intros Hopen. unfold main.
  cbn [bind ret Monad_sys sys_bind open report run_sys].
  rewrite Hopen. split; reflexivity.
Qed.

Lemma main_open_failure_witness :
  world_open (scripted_world (-1) (Build_termios 0 0 0 0 [])) (Script [] [])
    "/dev/ttyACM0" (Z.lor (O_RDWR linux) (O_NOCTTY linux))
  = (-1, Script [] [])
  /\ exit_value (run_sys (scripted_world (-1) (Build_termios 0 0 0 0 []))
                         (main linux) (Script [] [])) = 1.
Proof.
  split; [reflexivity |].
  exact (proj1 (main_open_failure linux
                  (scripted_world (-1) (Build_termios 0 0 0 0 []))
                  (Script [] []) (Script [] []) eq_refl)).
Defined.

(** Brings [serial_events], [printed] and [tcsetattr_calls] of an explicit
    list of calls to normal form. *)
Ltac norm_calls :=
  repeat (progress cbn [serial_events printed tcsetattr_calls app]
          || rewrite serial_events_app || rewrite serial_events_map
          || rewrite printed_app || rewrite printed_map
          || rewrite tcsetattr_calls_app || rewrite tcsetattr_calls_map).

(** What the five protocol calls of [main] hand to [write]. *)
Lemma sent_bytes_main_calls (ch : Channel) (s1 s2 s3 s4 s5 : chan_state ch)
    (fd speed : Z) :
  sent_bytes
    (trace (run ch (smcExitSafeStart fd) s1)
     ++ trace (run ch (smcGetErrorStatus fd) s2)
     ++ trace (run ch (smcGetTargetSpeed fd) s3)
     ++ trace (run ch (smcSetTargetSpeed fd (if speed <=? 0 then 3200 else -3200)) s4)
     ++ trace (run ch (smcSetTargetSpeed fd 0) s5) ++ [])
  = [[0x83]; [0xA1; 0]; [0xA1; 20];
     [if speed <=? 0 then 0x85 else 0x86; 0; 0x64]; [0x85; 0; 0]].
Proof.
  unfold smcGetErrorStatus.
  rewrite !sent_bytes_app, sent_smcExitSafeStart, sent_smcGetVariable,
    sent_smcGetTargetSpeed, !sent_smcSetTargetSpeed.
  destruct (speed <=? 0); reflexivity.
Qed.

(** X10. Once [open] has given a descriptor, [main] returns 0 whatever
    the channel answers, failures included.  It hands to [write], in this
    order: Exit Safe Start, Get Variable 0, Get Variable 20, a Set Target
    Speed of magnitude 3200 in one of the two directions, and a Set Target
    Speed of 0; its last call closes the descriptor. *)
Theorem main_wire_sequence
    (P : Posix) (W : World) (s s1 : world_state W) (fd : Z) :
  world_open W s "/dev/ttyACM0" (Z.lor (O_RDWR P) (O_NOCTTY P)) = (fd, s1) ->
  fd <> -1 ->
  exit_value (run_sys W (main P) s) = 0
  /\ (exists d,
        (d = 0x85 \/ d = 0x86)
        /\ sent_bytes (serial_events (calls (run_sys W (main P) s)))
           = [[0x83]; [0xA1; 0]; [0xA1; 20]; [d; 0; 0x64]; [0x85; 0; 0]])
  /\ exists before, calls (run_sys W (main P) s) = before ++ [EvClose fd].
Proof.
  intros Hopen Hfd.
  destruct (world_tcgetattr W s1 fd) as [t s2] eqn:Hget.
  pose proof (run_main_opened P W s s1 s2 fd t Hopen Hfd Hget) as Hrun.
  cbv zeta in Hrun. rewrite Hrun. cbn [exit_value calls].
  split; [reflexivity |]. split.
  - norm_calls. rewrite sent_bytes_main_calls.
    eexists. split; [| reflexivity].
    match goal with |- context [if ?b then _ else _] => destruct b end;
      [left | right]; reflexivity.
  - eexists.
    repeat (rewrite app_comm_cons || rewrite app_assoc). reflexivity.
Qed.

Lemma main_wire_sequence_witness :
  world_open (scripted_world 3 (Build_termios 0 0 0 0 []))
    (Script [1; 2; -1; 3; 3] [ReadData [0; 0]])
    "/dev/ttyACM0" (Z.lor (O_RDWR linux) (O_NOCTTY linux))
  = (3, Script [1; 2; -1; 3; 3] [ReadData [0; 0]])
  /\ 3 <> -1
  /\ exit_value (run_sys (scripted_world 3 (Build_termios 0 0 0 0 []))
                         (main linux)
                         (Script [1; 2; -1; 3; 3] [ReadData [0; 0]])) = 0.
Proof.
  assert (Hfd : 3 <> -1) by lia.
  split; [reflexivity |]. split; [exact Hfd |].
  exact (proj1 (main_wire_sequence linux
                  (scripted_world 3 (Build_termios 0 0 0 0 []))
                  (Script [1; 2; -1; 3; 3] [ReadData [0; 0]])
                  (Script [1; 2; -1; 3; 3] [ReadData [0; 0]]) 3 eq_refl Hfd)).
Defined.

(** X11. [main] prints the value [smcGetErrorStatus] returned and the
    value [smcGetTargetSpeed] returned, each called on the state its
    predecessors left; it then announces and sends the opposite extreme:
    3200 (forward) when that speed is at most 0, and -3200 (reverse)
    otherwise. *)
Theorem main_reverses_direction
    (P : Posix) (W : World) (s s1 s2 : world_state W) (fd : Z) (t : termios) :
  world_open W s "/dev/ttyACM0" (Z.lor (O_RDWR P) (O_NOCTTY P)) = (fd, s1) ->
  fd <> -1 ->
  world_tcgetattr W s1 fd = (t, s2) ->
  let ch := world_chan W in
  let o1 := run ch (smcExitSafeStart fd)
                (world_after W s2 (EvTcsetattr fd (TCSANOW P) (raw_options P t))) in
  let o2 := run ch (smcGetErrorStatus fd) (final o1) in
  let status := result o2 in
  let o3 := run ch (smcGetTargetSpeed fd)
                (world_after W (final o2)
                   (EvPrintf "Error status: 0x%04x\n" [status])) in
  let speed := result o3 in
  printed (calls (run_sys W (main P) s))
  = [("Error status: 0x%04x\n"%string, [status]);
     ("Current Target Speed is %d.\n"%string, [speed]);
     ("Setting Target Speed to %d.\n"%string,
      [if speed <=? 0 then 3200 else -3200])]
  /\ nth 3 (sent_bytes (serial_events (calls (run_sys W (main P) s)))) []
     = [if speed <=? 0 then 0x85 else 0x86; 0; 0x64].
Proof.
  intros Hopen Hfd Hget ch o1 o2 status o3 speed.
  pose proof (run_main_opened P W s s1 s2 fd t Hopen Hfd Hget) as Hrun.
  cbv zeta in Hrun. rewrite Hrun. cbn [calls].
  split.
  - norm_calls. reflexivity.
  - norm_calls. rewrite sent_bytes_main_calls. reflexivity.
Qed.

Lemma main_reverses_direction_witness :
  world_open (scripted_world 3 (Build_termios 0 0 0 0 []))
    (Script [1; 2; 2; 3; 3] [ReadData [0x21; 0]; ReadData [0x80; 0x0C]])
    "/dev/ttyACM0" (Z.lor (O_RDWR linux) (O_NOCTTY linux))
  = (3, Script [1; 2; 2; 3; 3] [ReadData [0x21; 0]; ReadData [0x80; 0x0C]])
  /\ 3 <> -1
  /\ world_tcgetattr (scripted_world 3 (Build_termios 0 0 0 0 []))
       (Script [1; 2; 2; 3; 3] [ReadData [0x21; 0]; ReadData [0x80; 0x0C]]) 3
     = (Build_termios 0 0 0 0 [],
        Script [1; 2; 2; 3; 3] [ReadData [0x21; 0]; ReadData [0x80; 0x0C]])
  /\ printed (calls (run_sys (scripted_world 3 (Build_termios 0 0 0 0 []))
                       (main linux)
                       (Script [1; 2; 2; 3; 3]
                          [ReadData [0x21; 0]; ReadData [0x80; 0x0C]])))
     = [("Error status: 0x%04x\n"%string, [0x21]);
        ("Current Target Speed is %d.\n"%string, [3200]);
        ("Setting Target Speed to %d.\n"%string, [-3200])]
  /\ nth 3 (sent_bytes (serial_events
              (calls (run_sys (scripted_world 3 (Build_termios 0 0 0 0 []))
                        (main linux)
                        (Script [1; 2; 2; 3; 3]
                           [ReadData [0x21; 0]; ReadData [0x80; 0x0C]]))))) []
     = [0x86; 0; 0x64].
Proof.
  assert (Hfd : 3 <> -1) by lia.
  split; [reflexivity |]. split; [exact Hfd |]. split; [reflexivity |].
  exact (main_reverses_direction linux
           (scripted_world 3 (Build_termios 0 0 0 0 []))
           (Script [1; 2; 2; 3; 3] [ReadData [0x21; 0]; ReadData [0x80; 0x0C]])
           (Script [1; 2; 2; 3; 3] [ReadData [0x21; 0]; ReadData [0x80; 0x0C]])
           (Script [1; 2; 2; 3; 3] [ReadData [0x21; 0]; ReadData [0x80; 0x0C]])
           3 (Build_termios 0 0 0 0 []) eq_refl Hfd eq_refl).
Defined.

(** A read that never returns 2 makes every Get Variable fail. *)
Lemma smcGetVariable_no_answer (ch : Channel) (s : chan_state ch) (fd id : Z) :
  (forall s' n, read_ret (fst (chan_read ch s' fd n)) <> 2) ->
  result (run ch (smcGetVariable fd id) s) = SERIAL_ERROR.
Proof.
  intros Hdead.
  destruct (chan_write ch s fd [0xA1; to_uchar id] 2) as [w s1] eqn:Hw.
  destruct (chan_read ch s1 fd 2) as [r s2] eqn:Hr.
  rewrite (run_smcGetVariable ch s fd id w s1 r s2 Hw Hr).
  destruct (w =? -1); [reflexivity |].
  specialize (Hdead s1 2). rewrite Hr in Hdead. cbn [fst] in Hdead.
  destruct (Z.eqb_spec (read_ret r) 2) as [E | _]; [contradiction | reflexivity].
Qed.

(** X12. On a line where no read ever returns 2 bytes, [main] still
    returns 0: it prints [SERIAL_ERROR] as the error status and as the
    target speed, and, the sentinel being negative, commands the motor to
    3200, full speed forward, before commanding 0. *)
Theorem main_without_answers
    (P : Posix) (W : World) (s s1 : world_state W) (fd : Z) :
  world_open W s "/dev/ttyACM0" (Z.lor (O_RDWR P) (O_NOCTTY P)) = (fd, s1) ->
  fd <> -1 ->
  (forall s' n, read_ret (fst (chan_read (world_chan W) s' fd n)) <> 2) ->
  exit_value (run_sys W (main P) s) = 0
  /\ printed (calls (run_sys W (main P) s))
     = [("Error status: 0x%04x\n"%string, [SERIAL_ERROR]);
        ("Current Target Speed is %d.\n"%string, [SERIAL_ERROR]);
        ("Setting Target Speed to %d.\n"%string, [3200])]
  /\ sent_bytes (serial_events (calls (run_sys W (main P) s)))
     = [[0x83]; [0xA1; 0]; [0xA1; 20]; [0x85; 0; 0x64]; [0x85; 0; 0]].
Proof.
  intros Hopen Hfd Hdead.
  destruct (world_tcgetattr W s1 fd) as [t s2] eqn:Hget.
  pose proof (run_main_opened P W s s1 s2 fd t Hopen Hfd Hget) as Hrun.
  cbv zeta in Hrun. rewrite Hrun. cbn [exit_value calls].
  split; [reflexivity |].
  assert (Hspeed : forall s', result (run (world_chan W) (smcGetTargetSpeed fd) s')
                              = SERIAL_ERROR).
  { intros s'. rewrite run_smcGetTargetSpeed. cbn zeta. cbn [result].
    rewrite (smcGetVariable_no_answer (world_chan W) s' fd 20 Hdead).
    reflexivity. }
  split.
  - norm_calls. unfold smcGetErrorStatus.
    rewrite (smcGetVariable_no_answer (world_chan W) _ fd 0 Hdead).
    rewrite !Hspeed. reflexivity.
  - norm_calls. rewrite sent_bytes_main_calls, Hspeed. reflexivity.
Qed.

Lemma main_without_answers_witness :
  world_open (silent_world 3 (Build_termios 0 0 0 0 [])) tt
    "/dev/ttyACM0" (Z.lor (O_RDWR linux) (O_NOCTTY linux)) = (3, tt)
  /\ 3 <> -1
  /\ (forall s' n,
        read_ret (fst (chan_read
                         (world_chan (silent_world 3 (Build_termios 0 0 0 0 [])))
                         s' 3 n)) <> 2)
  /\ sent_bytes (serial_events
       (calls (run_sys (silent_world 3 (Build_termios 0 0 0 0 []))
                       (main linux) tt)))
     = [[0x83]; [0xA1; 0]; [0xA1; 20]; [0x85; 0; 0x64]; [0x85; 0; 0]].
Proof.
  assert (Hfd : 3 <> -1) by lia.
  assert (Hdead : forall (s' : unit) (n : Z),
             read_ret (fst (chan_read
                              (world_chan (silent_world 3 (Build_termios 0 0 0 0 [])))
                              s' 3 n)) <> 2)
    by (intros s' n; cbn; lia).
  split; [reflexivity |]. split; [exact Hfd |]. split; [exact Hdead |].
  pose proof (main_without_answers linux
                (silent_world 3 (Build_termios 0 0 0 0 [])) tt tt 3
                eq_refl Hfd Hdead) as H.
  destruct H as (_ & _ & Hsent). exact Hsent.
Defined.

Lemma clear_flags_testbit (flags mask i : Z) :
  0 <= i ->
  Z.testbit (clear_flags flags mask) i
  = Z.testbit flags i && negb (Z.testbit mask i).
Proof.
  intros Hi. unfold clear_flags. rewrite Z.land_spec, Z.lnot_spec by exact Hi.
  reflexivity.
Qed.

(** X13. [main] calls [tcsetattr] once, on the descriptor it opened, with
    the options [tcgetattr] gave in which the bits of INLCR, IGNCR, ICRNL,
    IXON, IXOFF (input), of ONLCR, OCRNL (output) and of ECHO, ECHONL,
    ICANON, ISIG, IEXTEN (local) are cleared; every other bit and the
    members [c_cflag] and [c_cc] are as they were. *)
Theorem main_raw_mode
    (P : Posix) (W : World) (s s1 s2 : world_state W) (fd : Z) (t : termios) :
  world_open W s "/dev/ttyACM0" (Z.lor (O_RDWR P) (O_NOCTTY P)) = (fd, s1) ->
  fd <> -1 ->
  world_tcgetattr W s1 fd = (t, s2) ->
  exists t',
    tcsetattr_calls (calls (run_sys W (main P) s)) = [(fd, TCSANOW P, t')]
    /\ c_cflag t' = c_cflag t
    /\ c_cc t' = c_cc t
    /\ forall i, 0 <= i ->
         Z.testbit (c_iflag t') i
         = Z.testbit (c_iflag t) i
           && negb (Z.testbit (INLCR P) i || Z.testbit (IGNCR P) i
                    || Z.testbit (ICRNL P) i || Z.testbit (IXON P) i
                    || Z.testbit (IXOFF P) i)
         /\ Z.testbit (c_oflag t') i
            = Z.testbit (c_oflag t) i
              && negb (Z.testbit (ONLCR P) i || Z.testbit (OCRNL P) i)
         /\ Z.testbit (c_lflag t') i
            = Z.testbit (c_lflag t) i
              && negb (Z.testbit (ECHO P) i || Z.testbit (ECHONL P) i
                       || Z.testbit (ICANON P) i || Z.testbit (ISIG P) i
                       || Z.testbit (IEXTEN P) i).
Proof.
  intros Hopen Hfd Hget.
  pose proof (run_main_opened P W s s1 s2 fd t Hopen Hfd Hget) as Hrun.
  cbv zeta in Hrun. rewrite Hrun. cbn [calls].
  exists (raw_options P t). split; [norm_calls; reflexivity |].
  split; [reflexivity |]. split; [reflexivity |].
  intros i Hi. unfold raw_options. cbn [c_iflag c_oflag c_lflag].
  rewrite !clear_flags_testbit by exact Hi. rewrite !Z.lor_spec.
  repeat split; reflexivity.
Qed.

Lemma main_raw_mode_witness :
  world_open (scripted_world 3 (Build_termios 1280 5 191 35387 [])) (Script [] [])
    "/dev/ttyACM0" (Z.lor (O_RDWR linux) (O_NOCTTY linux))
  = (3, Script [] [])
  /\ 3 <> -1
  /\ world_tcgetattr (scripted_world 3 (Build_termios 1280 5 191 35387 []))
       (Script [] []) 3
     = (Build_termios 1280 5 191 35387 [], Script [] [])
  /\ exists t',
       tcsetattr_calls
         (calls (run_sys (scripted_world 3 (Build_termios 1280 5 191 35387 []))
                         (main linux) (Script [] [])))
       = [(3, TCSANOW linux, t')]
       /\ c_cflag t' = 191.
Proof.
  assert (Hfd : 3 <> -1) by lia.
  split; [reflexivity |]. split; [exact Hfd |]. split; [reflexivity |].
  destruct (main_raw_mode linux
              (scripted_world 3 (Build_termios 1280 5 191 35387 []))
              (Script [] []) (Script [] []) (Script [] []) 3
              (Build_termios 1280 5 191 35387 []) eq_refl Hfd eq_refl)
    as (t' & Hcalls & Hcflag & _).
  exists t'. split; [exact Hcalls | exact Hcflag].
Defined.

(** X14. Every [write] and [read] of a run of [main] is made on the
    descriptor that [open] returned. *)
Theorem main_calls_on_opened_fd
    (P : Posix) (W : World) (s s1 : world_state W) (fd : Z) :
  world_open W s "/dev/ttyACM0" (Z.lor (O_RDWR P) (O_NOCTTY P)) = (fd, s1) ->
  fd <> -1 ->
  Forall (on_fd fd) (serial_events (calls (run_sys W (main P) s))).
Proof.
  intros Hopen Hfd.
  destruct (world_tcgetattr W s1 fd) as [t s2] eqn:Hget.
  pose proof (run_main_opened P W s s1 s2 fd t Hopen Hfd Hget) as Hrun.
  cbv zeta in Hrun. rewrite Hrun. cbn [calls]. norm_calls.
  repeat (apply Forall_app; split);
    [ apply on_fd_smcExitSafeStart | apply on_fd_smcGetVariable
    | apply on_fd_smcGetTargetSpeed | apply on_fd_smcSetTargetSpeed
    | apply on_fd_smcSetTargetSpeed | apply Forall_nil ].
Qed.

Lemma main_calls_on_opened_fd_witness :
  world_open (scripted_world 3 (Build_termios 0 0 0 0 []))
    (Script [1; 2; 2; 3; 3] [ReadData [0; 0]; ReadData [0x80; 0x0C]])
    "/dev/ttyACM0" (Z.lor (O_RDWR linux) (O_NOCTTY linux))
  = (3, Script [1; 2; 2; 3; 3] [ReadData [0; 0]; ReadData [0x80; 0x0C]])
  /\ 3 <> -1
  /\ Forall (on_fd 3)
       (serial_events
          (calls (run_sys (scripted_world 3 (Build_termios 0 0 0 0 []))
                          (main linux)
                          (Script [1; 2; 2; 3; 3]
                             [ReadData [0; 0]; ReadData [0x80; 0x0C]])))).
Proof.
  assert (Hfd : 3 <> -1) by lia.
  split; [reflexivity |]. split; [exact Hfd |].
  exact (main_calls_on_opened_fd linux
           (scripted_world 3 (Build_termios 0 0 0 0 []))
           (Script [1; 2; 2; 3; 3] [ReadData [0; 0]; ReadData [0x80; 0x0C]])
           (Script [1; 2; 2; 3; 3] [ReadData [0; 0]; ReadData [0x80; 0x0C]])
           3 eq_refl Hfd).
Defined.

(** A whole run of [main]: the controller reports no error and a target
    speed of 3200, so the motor is sent to -3200 and then to 0. *)
Example run_main_scripted :
  run_sys (scripted_world 3 (Build_termios 1280 5 191 35387 [])) (main linux)
          (Script [1; 2; 2; 3; 3] [ReadData [0; 0]; ReadData [0x80; 0x0C]])
  = {| exit_value := 0;
       calls :=
         [EvOpen "/dev/ttyACM0" 258 3;
          EvTcgetattr 3 (Build_termios 1280 5 191 35387 []);
          EvTcsetattr 3 0 (Build_termios 0 1 191 2608 []);
          EvSerial (EvWrite 3 [0x83] 1 1);
          EvSerial (EvWrite 3 [0xA1; 0] 2 2);
          EvSerial (EvRead 3 2 (ReadData [0; 0]));
          EvPrintf "Error status: 0x%04x\n" [0];
          EvSerial (EvWrite 3 [0xA1; 20] 2 2);
          EvSerial (EvRead 3 2 (ReadData [0x80; 0x0C]));
          EvPrintf "Current Target Speed is %d.\n" [3200];
          EvUsleep 9000000;
          EvPrintf "Setting Target Speed to %d.\n" [-3200];
          EvSerial (EvWrite 3 [0x86; 0x00; 0x64] 3 3);
          EvUsleep 9000000;
          EvSerial (EvWrite 3 [0x85; 0x00; 0x00] 3 3);
          EvClose 3];
       world_final := Script [] [] |}.
Proof. vm_compute. reflexivity. Qed.
